(** * scroll-velocity: the ScrollVelocity tracker (v0.2.0, hybrid + responsive)

    A shallow embedding of [ScrollVelocity] and of the part of the browser it
    talks to (scroll position, clock, reduced-motion query, animation-frame
    scheduler, scroll listener, style writes).

    Numbers.  A JavaScript number is read as a real number: [R] stands for the
    finite doubles, rounding is not modelled.  The two operations of the
    source that can leave the finite numbers from finite arguments, [/] and
    [Math.log], also get a checked form ([js_div], [js_log]) that returns
    [None] where JavaScript yields [Infinity], [-Infinity] or [NaN]. *)

From Stdlib Require Import Reals Lra Lia List String Factorial.
From stdpp Require Import base option strings gmap.

Open Scope R_scope.

(** ** JavaScript values *)

(** A DOM element: the tracker only ever asks whether it has a [style]. *)
Record Element := { elem_id : nat; elem_has_style : bool }.

Inductive JSValue :=
  | JUndefined
  | JNull
  | JBool (b : bool)
  | JNum (r : R)
  | JStr (s : string)
  | JObj (e : Element).

(** ToBoolean, as used by [||], [&&], [!!] and [if]. *)
Definition truthy (v : JSValue) : bool :=
  match v with
  | JUndefined | JNull => false
  | JBool b => b
  | JNum r => if Req_dec_T r 0 then false else true
  | JStr s => negb (String.eqb s "")
  | JObj _ => true
  end.

(** [a || b] *)
Definition js_or (a b : JSValue) : JSValue := if truthy a then a else b.

(** [v === "s"] *)
Definition str_is (v : JSValue) (s : string) : bool :=
  match v with
  | JStr s' => String.eqb s' s
  | _ => false
  end.

(** [typeof v === "number" ? v : d] *)
Definition num_or (v : JSValue) (d : R) : R :=
  match v with
  | JNum r => r
  | _ => d
  end.

(** [v !== false] *)
Definition not_false (v : JSValue) : bool :=
  match v with
  | JBool false => false
  | _ => true
  end.

(** An options object: own properties only. *)
Abbreviation Options := (gmap string JSValue).

(** [o.k]: a missing property reads as [undefined]. *)
Definition prop (o : Options) (k : string) : JSValue := default JUndefined (o !! k).

(** ["k" in o] *)
Definition has (o : Options) (k : string) : bool := bool_decide (is_Some (o !! k)).

(** ** Math *)

(** [clamp(value, min, max)] *)
Definition clamp (value min max : R) : R := Rmax min (Rmin max value).

(** [Math.pow(x, y)] on the only domain the source uses it on: a base
    [x >= 0] and an exponent [y > 0]. *)
Definition Math_pow (x y : R) : R := if Rle_dec x 0 then 0 else Rpower x y.

(** [x / y], checked: [None] stands for a non-finite quotient. *)
Definition js_div (x y : R) : option R :=
  if Req_dec_T y 0 then None else Some (x / y).

(** [Math.log(x)], checked: [-Infinity] at 0 and [NaN] below it are [None]. *)
Definition js_log (x : R) : option R :=
  if Rlt_dec 0 x then Some (ln x) else None.

(** ** The tracker object *)

Record Tracker := {
  target : JSValue;
  sampleMode : JSValue;
  responsiveness : R;
  friction : R;
  attraction : R;
  threshold : R;
  maxVelocity : R;
  writeCSSVariables : bool;
  respectReducedMotion : bool;
  _isRunning : bool;
  _rafId : nat;
  _velocity : R;
  _lastScrollY : R;
  _lastTime : R
}.

Definition set_target (x : JSValue) (t : Tracker) : Tracker :=
  {| target := x; sampleMode := sampleMode t; responsiveness := responsiveness t;
     friction := friction t; attraction := attraction t; threshold := threshold t;
     maxVelocity := maxVelocity t; writeCSSVariables := writeCSSVariables t;
     respectReducedMotion := respectReducedMotion t; _isRunning := _isRunning t;
     _rafId := _rafId t; _velocity := _velocity t; _lastScrollY := _lastScrollY t;
     _lastTime := _lastTime t |}.

Definition set_sampleMode (x : JSValue) (t : Tracker) : Tracker :=
  {| target := target t; sampleMode := x; responsiveness := responsiveness t;
     friction := friction t; attraction := attraction t; threshold := threshold t;
     maxVelocity := maxVelocity t; writeCSSVariables := writeCSSVariables t;
     respectReducedMotion := respectReducedMotion t; _isRunning := _isRunning t;
     _rafId := _rafId t; _velocity := _velocity t; _lastScrollY := _lastScrollY t;
     _lastTime := _lastTime t |}.

Definition set_responsiveness (x : R) (t : Tracker) : Tracker :=
  {| target := target t; sampleMode := sampleMode t; responsiveness := x;
     friction := friction t; attraction := attraction t; threshold := threshold t;
     maxVelocity := maxVelocity t; writeCSSVariables := writeCSSVariables t;
     respectReducedMotion := respectReducedMotion t; _isRunning := _isRunning t;
     _rafId := _rafId t; _velocity := _velocity t; _lastScrollY := _lastScrollY t;
     _lastTime := _lastTime t |}.

Definition set_friction (x : R) (t : Tracker) : Tracker :=
  {| target := target t; sampleMode := sampleMode t; responsiveness := responsiveness t;
     friction := x; attraction := attraction t; threshold := threshold t;
     maxVelocity := maxVelocity t; writeCSSVariables := writeCSSVariables t;
     respectReducedMotion := respectReducedMotion t; _isRunning := _isRunning t;
     _rafId := _rafId t; _velocity := _velocity t; _lastScrollY := _lastScrollY t;
     _lastTime := _lastTime t |}.

Definition set_attraction (x : R) (t : Tracker) : Tracker :=
  {| target := target t; sampleMode := sampleMode t; responsiveness := responsiveness t;
     friction := friction t; attraction := x; threshold := threshold t;
     maxVelocity := maxVelocity t; writeCSSVariables := writeCSSVariables t;
     respectReducedMotion := respectReducedMotion t; _isRunning := _isRunning t;
     _rafId := _rafId t; _velocity := _velocity t; _lastScrollY := _lastScrollY t;
     _lastTime := _lastTime t |}.

Definition set_threshold (x : R) (t : Tracker) : Tracker :=
  {| target := target t; sampleMode := sampleMode t; responsiveness := responsiveness t;
     friction := friction t; attraction := attraction t; threshold := x;
     maxVelocity := maxVelocity t; writeCSSVariables := writeCSSVariables t;
     respectReducedMotion := respectReducedMotion t; _isRunning := _isRunning t;
     _rafId := _rafId t; _velocity := _velocity t; _lastScrollY := _lastScrollY t;
     _lastTime := _lastTime t |}.

Definition set_maxVelocity (x : R) (t : Tracker) : Tracker :=
  {| target := target t; sampleMode := sampleMode t; responsiveness := responsiveness t;
     friction := friction t; attraction := attraction t; threshold := threshold t;
     maxVelocity := x; writeCSSVariables := writeCSSVariables t;
     respectReducedMotion := respectReducedMotion t; _isRunning := _isRunning t;
     _rafId := _rafId t; _velocity := _velocity t; _lastScrollY := _lastScrollY t;
     _lastTime := _lastTime t |}.

Definition set_writeCSSVariables (x : bool) (t : Tracker) : Tracker :=
  {| target := target t; sampleMode := sampleMode t; responsiveness := responsiveness t;
     friction := friction t; attraction := attraction t; threshold := threshold t;
     maxVelocity := maxVelocity t; writeCSSVariables := x;
     respectReducedMotion := respectReducedMotion t; _isRunning := _isRunning t;
     _rafId := _rafId t; _velocity := _velocity t; _lastScrollY := _lastScrollY t;
     _lastTime := _lastTime t |}.

Definition set_respectReducedMotion (x : bool) (t : Tracker) : Tracker :=
  {| target := target t; sampleMode := sampleMode t; responsiveness := responsiveness t;
     friction := friction t; attraction := attraction t; threshold := threshold t;
     maxVelocity := maxVelocity t; writeCSSVariables := writeCSSVariables t;
     respectReducedMotion := x; _isRunning := _isRunning t;
     _rafId := _rafId t; _velocity := _velocity t; _lastScrollY := _lastScrollY t;
     _lastTime := _lastTime t |}.

Definition set_isRunning (x : bool) (t : Tracker) : Tracker :=
  {| target := target t; sampleMode := sampleMode t; responsiveness := responsiveness t;
     friction := friction t; attraction := attraction t; threshold := threshold t;
     maxVelocity := maxVelocity t; writeCSSVariables := writeCSSVariables t;
     respectReducedMotion := respectReducedMotion t; _isRunning := x;
     _rafId := _rafId t; _velocity := _velocity t; _lastScrollY := _lastScrollY t;
     _lastTime := _lastTime t |}.

Definition set_rafId (x : nat) (t : Tracker) : Tracker :=
  {| target := target t; sampleMode := sampleMode t; responsiveness := responsiveness t;
     friction := friction t; attraction := attraction t; threshold := threshold t;
     maxVelocity := maxVelocity t; writeCSSVariables := writeCSSVariables t;
     respectReducedMotion := respectReducedMotion t; _isRunning := _isRunning t;
     _rafId := x; _velocity := _velocity t; _lastScrollY := _lastScrollY t;
     _lastTime := _lastTime t |}.

Definition set_velocity (x : R) (t : Tracker) : Tracker :=
  {| target := target t; sampleMode := sampleMode t; responsiveness := responsiveness t;
     friction := friction t; attraction := attraction t; threshold := threshold t;
     maxVelocity := maxVelocity t; writeCSSVariables := writeCSSVariables t;
     respectReducedMotion := respectReducedMotion t; _isRunning := _isRunning t;
     _rafId := _rafId t; _velocity := x; _lastScrollY := _lastScrollY t;
     _lastTime := _lastTime t |}.

Definition set_lastScrollY (x : R) (t : Tracker) : Tracker :=
  {| target := target t; sampleMode := sampleMode t; responsiveness := responsiveness t;
     friction := friction t; attraction := attraction t; threshold := threshold t;
     maxVelocity := maxVelocity t; writeCSSVariables := writeCSSVariables t;
     respectReducedMotion := respectReducedMotion t; _isRunning := _isRunning t;
     _rafId := _rafId t; _velocity := _velocity t; _lastScrollY := x;
     _lastTime := _lastTime t |}.

Definition set_lastTime (x : R) (t : Tracker) : Tracker :=
  {| target := target t; sampleMode := sampleMode t; responsiveness := responsiveness t;
     friction := friction t; attraction := attraction t; threshold := threshold t;
     maxVelocity := maxVelocity t; writeCSSVariables := writeCSSVariables t;
     respectReducedMotion := respectReducedMotion t; _isRunning := _isRunning t;
     _rafId := _rafId t; _velocity := _velocity t; _lastScrollY := _lastScrollY t;
     _lastTime := x |}.

(** ** The browser, as far as the tracker sees it *)

(** One [style.setProperty(name, value)] on an element.  The value is kept as
    the number handed to [toFixed]; the decimal formatting is not modelled. *)
Definition StyleWrite : Type := nat * string * R.

Record Browser := {
  document_body : JSValue; (* document.body: an element, or null before <body> is parsed *)
  scrollY : R;            (* window.scrollY || window.pageYOffset || 0 *)
  now : R;                (* performance.now() *)
  reduced_motion : bool;  (* window.matchMedia && matchMedia("(prefers-reduced-motion: reduce)").matches *)
  scroll_listener : bool; (* is _boundOnScroll registered for "scroll" *)
  raf_counter : nat;      (* last animation-frame handle handed out *)
  raf_pending : list nat; (* handles whose callback (_boundOnRaf) has yet to run *)
  style_log : list StyleWrite
}.

Definition set_scrollY (x : R) (b : Browser) : Browser :=
  {| document_body := document_body b; scrollY := x; now := now b;
     reduced_motion := reduced_motion b; scroll_listener := scroll_listener b;
     raf_counter := raf_counter b; raf_pending := raf_pending b;
     style_log := style_log b |}.

Definition set_now (x : R) (b : Browser) : Browser :=
  {| document_body := document_body b; scrollY := scrollY b; now := x;
     reduced_motion := reduced_motion b; scroll_listener := scroll_listener b;
     raf_counter := raf_counter b; raf_pending := raf_pending b;
     style_log := style_log b |}.

Definition set_reduced_motion (x : bool) (b : Browser) : Browser :=
  {| document_body := document_body b; scrollY := scrollY b; now := now b;
     reduced_motion := x; scroll_listener := scroll_listener b;
     raf_counter := raf_counter b; raf_pending := raf_pending b;
     style_log := style_log b |}.

Definition set_scroll_listener (x : bool) (b : Browser) : Browser :=
  {| document_body := document_body b; scrollY := scrollY b; now := now b;
     reduced_motion := reduced_motion b; scroll_listener := x;
     raf_counter := raf_counter b; raf_pending := raf_pending b;
     style_log := style_log b |}.

Definition set_raf (c : nat) (p : list nat) (b : Browser) : Browser :=
  {| document_body := document_body b; scrollY := scrollY b; now := now b;
     reduced_motion := reduced_motion b; scroll_listener := scroll_listener b;
     raf_counter := c; raf_pending := p;
     style_log := style_log b |}.

Definition set_style_log (x : list StyleWrite) (b : Browser) : Browser :=
  {| document_body := document_body b; scrollY := scrollY b; now := now b;
     reduced_motion := reduced_motion b; scroll_listener := scroll_listener b;
     raf_counter := raf_counter b; raf_pending := raf_pending b;
     style_log := x |}.

(** ** Methods run on a world: the tracker object and the browser *)

Record World := { this : Tracker; window : Browser }.

Definition M (A : Type) : Type := World -> A * World.

Definition ret {A : Type} (a : A) : M A := fun w => (a, w).

Definition bind {A B : Type} (m : M A) (k : A -> M B) : M B :=
  fun w => let (a, w') := m w in k a w'.

Declare Scope js_scope.
Delimit Scope js_scope with js.
Notation "x <- m ;; k" := (bind m (fun x => k))
  (at level 100, m at next level, right associativity) : js_scope.
Notation "m ;; k" := (bind m (fun _ => k))
  (at level 100, right associativity) : js_scope.
Open Scope js_scope.

Definition getThis : M Tracker := fun w => (this w, w).
Definition getWindow : M Browser := fun w => (window w, w).

Definition update (f : Tracker -> Tracker) : M unit :=
  fun w => (tt, {| this := f (this w); window := window w |}).

Definition updateWindow (f : Browser -> Browser) : M unit :=
  fun w => (tt, {| this := this w; window := f (window w) |}).

Definition when (c : bool) (m : M unit) : M unit := if c then m else ret tt.

(** The state a method leaves behind. *)
Definition exec {A : Type} (m : M A) (w : World) : World := snd (m w).
(** The value a method returns. *)
Definition eval {A : Type} (m : M A) (w : World) : A := fst (m w).

(** [requestAnimationFrame(this._boundOnRaf)]: a fresh non-zero handle. *)
Definition requestAnimationFrame : M nat :=
  b <- getWindow ;;
  let id := S (raf_counter b) in
  updateWindow (set_raf id (raf_pending b ++ [id])) ;;
  ret id.

(** [cancelAnimationFrame(id)] *)
Definition cancelAnimationFrame (id : nat) : M unit :=
  updateWindow (fun b =>
    set_raf (raf_counter b) (List.filter (fun i => negb (Nat.eqb i id)) (raf_pending b)) b).

(** [target.style.setProperty(name, value)] *)
Definition setProperty (e : Element) (name : string) (value : R) : M unit :=
  updateWindow (fun b => set_style_log (style_log b ++ [(elem_id e, name, value)]) b).

(** Comparisons of numbers, as booleans. *)
Definition Rltb (x y : R) : bool := if Rlt_dec x y then true else false.
Definition Rleb (x y : R) : bool := if Rle_dec x y then true else false.

(** ** ScrollVelocity *)

(** [constructor(options = {})]; [body] is the value of [document.body] at
    the time of the call. *)
Definition constructor (body : JSValue) (options : Options) : Tracker :=
  {| target := js_or (prop options "target") body;
     sampleMode := js_or (prop options "sampleMode") (JStr "hybrid");
     responsiveness := num_or (prop options "responsiveness") 0.35;
     friction := num_or (prop options "friction") 0.92;
     attraction := num_or (prop options "attraction") 0.04;
     threshold := num_or (prop options "threshold") 0.02;
     maxVelocity := num_or (prop options "maxVelocity") 200;
     writeCSSVariables := not_false (prop options "writeCSSVariables");
     respectReducedMotion := not_false (prop options "respectReducedMotion");
     _isRunning := false;
     _rafId := 0;
     _velocity := 0;
     _lastScrollY := 0;
     _lastTime := 0 |}.

(** [if ("k" in nextOptions && typeof nextOptions.k === "number") this.f = nextOptions.k] *)
Definition set_if_number (o : Options) (k : string)
    (set : R -> Tracker -> Tracker) (t : Tracker) : Tracker :=
  if has o k then
    match prop o k with
    | JNum r => set r t
    | _ => t
    end
  else t.

(** [setOptions(nextOptions = {})]: the assignments, in source order. *)
Definition setOptions (nextOptions : Options) (t : Tracker) : Tracker :=
  let t := if has nextOptions "target" && truthy (prop nextOptions "target")
           then set_target (prop nextOptions "target") t else t in
  let t := if has nextOptions "sampleMode"
           then set_sampleMode (js_or (prop nextOptions "sampleMode") (JStr "hybrid")) t
           else t in
  let t := set_if_number nextOptions "responsiveness" set_responsiveness t in
  let t := set_if_number nextOptions "dampening" set_responsiveness t in
  let t := set_if_number nextOptions "friction" set_friction t in
  let t := set_if_number nextOptions "attraction" set_attraction t in
  let t := set_if_number nextOptions "threshold" set_threshold t in
  let t := set_if_number nextOptions "maxVelocity" set_maxVelocity t in
  let t := if has nextOptions "writeCSSVariables"
           then set_writeCSSVariables (truthy (prop nextOptions "writeCSSVariables")) t
           else t in
  let t := if has nextOptions "respectReducedMotion"
           then set_respectReducedMotion (truthy (prop nextOptions "respectReducedMotion")) t
           else t in
  t.

(** [getVelocity()] *)
Definition getVelocity : M R :=
  t <- getThis ;; ret (_velocity t).

(** [getNormalizedVelocity()] *)
Definition getNormalizedVelocity : M R :=
  t <- getThis ;;
  if Rleb (maxVelocity t) 0 then ret 0
  else ret (clamp (_velocity t / maxVelocity t) (-1) 1).

(** The element whose [style] [_writeCSS] writes to: [this.target] must be
    truthy and have a [style]. *)
Definition styled (v : JSValue) : option Element :=
  match v with
  | JObj e => if elem_has_style e then Some e else None
  | _ => None
  end.

(** [_writeCSS(normalized)] *)
Definition _writeCSS (normalized : R) : M unit :=
  t <- getThis ;;
  if negb (writeCSSVariables t) || negb (truthy (target t)) then ret tt
  else match styled (target t) with
  | None => ret tt
  | Some e =>
    let abs := Rabs normalized in
    let pow := Rmin 1 (Math_pow abs 0.7 * 1.35) in
    setProperty e "--scroll-velocity" normalized ;;
    setProperty e "--scroll-velocity-abs" abs ;;
    setProperty e "--scroll-velocity-pow" pow ;;
    setProperty e "--scroll-velocity-raw" (_velocity t)
  end.

(** [start()] *)
Definition start : M unit :=
  t <- getThis ;;
  if _isRunning t then ret tt
  else
    update (set_isRunning true) ;;
    b <- getWindow ;;
    update (set_lastScrollY (scrollY b)) ;;
    update (set_lastTime (now b)) ;;
    updateWindow (set_scroll_listener true) ;;
    id <- requestAnimationFrame ;;
    update (set_rafId id).

(** [stop()] *)
Definition stop : M unit :=
  t <- getThis ;;
  if negb (_isRunning t) then ret tt
  else
    update (set_isRunning false) ;;
    updateWindow (set_scroll_listener false) ;;
    when (negb (Nat.eqb (_rafId t) 0)) (cancelAnimationFrame (_rafId t)) ;;
    update (set_rafId 0) ;;
    update (set_velocity 0) ;;
    _writeCSS 0.

(** [now - this._lastTime || 16.7]: the fallback replaces a falsy
    difference, and of the real numbers only 0 is falsy. *)
Definition deltaT_of (now last : R) : R :=
  let d := now - last in
  if Req_dec_T d 0 then 16.7 else d.

(** The sampling modes of [_onScroll]: the value of [instantaneous]. *)
Definition instantaneous (mode : JSValue) (deltaY deltaT : R) : R :=
  if str_is mode "time" then
    (if Rltb 0 deltaT then deltaY / deltaT else 0) * 12
  else if str_is mode "hybrid" then
    let cappedDeltaT := Rmax deltaT 4 in
    let filteredDeltaY := if Rltb (Rabs deltaY) 0.3 then 0 else deltaY in
    if Rltb cappedDeltaT 10 then
      filteredDeltaY * (0.85 + 0.15 * (cappedDeltaT / 10))
    else if Rltb 25 cappedDeltaT then
      let adaptiveScale := 6 + ln cappedDeltaT * 2 in
      (filteredDeltaY / cappedDeltaT) * adaptiveScale
    else
      let deltaRatio := (25 - cappedDeltaT) / 15 in
      let deltaComponent := filteredDeltaY * 0.7 in
      let timeComponent := (filteredDeltaY / cappedDeltaT) * 8 in
      deltaRatio * deltaComponent + (1 - deltaRatio) * timeComponent
  else deltaY.

(** The same computation with every division by a time and the logarithm
    checked: [None] as soon as one of them is not finite. *)
Definition instantaneous_checked (mode : JSValue) (deltaY deltaT : R) : option R :=
  if str_is mode "time" then
    q ← (if Rltb 0 deltaT then js_div deltaY deltaT else Some 0);
    Some (q * 12)
  else if str_is mode "hybrid" then
    let cappedDeltaT := Rmax deltaT 4 in
    let filteredDeltaY := if Rltb (Rabs deltaY) 0.3 then 0 else deltaY in
    if Rltb cappedDeltaT 10 then
      Some (filteredDeltaY * (0.85 + 0.15 * (cappedDeltaT / 10)))
    else if Rltb 25 cappedDeltaT then
      l ← js_log cappedDeltaT;
      let adaptiveScale := 6 + l * 2 in
      q ← js_div filteredDeltaY cappedDeltaT;
      Some (q * adaptiveScale)
    else
      let deltaRatio := (25 - cappedDeltaT) / 15 in
      let deltaComponent := filteredDeltaY * 0.7 in
      q ← js_div filteredDeltaY cappedDeltaT;
      let timeComponent := q * 8 in
      Some (deltaRatio * deltaComponent + (1 - deltaRatio) * timeComponent)
  else Some deltaY.

(** [if (!this._rafId) this._rafId = requestAnimationFrame(this._boundOnRaf)] *)
Definition ensureRaf : M unit :=
  t <- getThis ;;
  when (Nat.eqb (_rafId t) 0)
    (id <- requestAnimationFrame ;; update (set_rafId id)).

(** [_onScroll()] *)
Definition _onScroll : M unit :=
  t <- getThis ;;
  b <- getWindow ;;
  if respectReducedMotion t && reduced_motion b then
    update (set_velocity 0) ;;
    _writeCSS 0 ;;
    ensureRaf
  else
    let y := scrollY b in
    let now := now b in
    let deltaY := y - _lastScrollY t in
    let deltaT := deltaT_of now (_lastTime t) in
    update (set_lastScrollY y) ;;
    update (set_lastTime now) ;;
    let instantaneous := instantaneous (sampleMode t) deltaY deltaT in
    let targetVelocity := _velocity t + instantaneous in
    update (fun t => set_velocity
      (_velocity t + (targetVelocity - _velocity t) * responsiveness t) t) ;;
    update (fun t => set_velocity
      (clamp (_velocity t) (- maxVelocity t) (maxVelocity t)) t) ;;
    ensureRaf.

(** [_onRaf()] *)
Definition _onRaf : M unit :=
  update (set_rafId 0) ;;
  t <- getThis ;;
  b <- getWindow ;;
  when (negb (respectReducedMotion t && reduced_motion b))
    (update (fun t => set_velocity (_velocity t * friction t) t) ;;
     update (fun t => set_velocity (_velocity t * (1 - attraction t)) t) ;;
     t <- getThis ;;
     when (Rltb (Rabs (_velocity t)) (threshold t)) (update (set_velocity 0))) ;;
  n <- getNormalizedVelocity ;;
  _writeCSS n ;;
  t <- getThis ;;
  when (_isRunning t && Rltb 0 (Rabs (_velocity t)))
    (id <- requestAnimationFrame ;; update (set_rafId id)).

(** ** Browser events *)

(** The page scrolls to [y] at time [time]: the listener runs if registered. *)
Definition scroll_event (y time : R) : M unit :=
  updateWindow (fun b => set_now time (set_scrollY y b)) ;;
  b <- getWindow ;;
  when (scroll_listener b) _onScroll.

(** Run a callback once per handle of a list, in order. *)
Fixpoint run_callbacks (ids : list nat) (cb : M unit) : M unit :=
  match ids with
  | [] => ret tt
  | _ :: ids' => cb ;; run_callbacks ids' cb
  end.

(** One display refresh: the callbacks requested so far run; what they
    request is for the next refresh. *)
Definition animation_frame : M unit :=
  b <- getWindow ;;
  updateWindow (set_raf (raf_counter b) []) ;;
  run_callbacks (raf_pending b) _onRaf.

(** [n] display refreshes in a row. *)
Fixpoint frames (n : nat) : M unit :=
  match n with
  | O => ret tt
  | S n' => animation_frame ;; frames n'
  end.

(** ** The effect of the methods, in closed form *)

(** The writes of one [_writeCSS(normalized)] on tracker [t]. *)
Definition css_writes (t : Tracker) (normalized : R) : list StyleWrite :=
  if writeCSSVariables t then
    match styled (target t) with
    | Some e =>
        [ (elem_id e, "--scroll-velocity"%string, normalized);
          (elem_id e, "--scroll-velocity-abs"%string, Rabs normalized);
          (elem_id e, "--scroll-velocity-pow"%string,
             Rmin 1 (Math_pow (Rabs normalized) 0.7 * 1.35));
          (elem_id e, "--scroll-velocity-raw"%string, _velocity t) ]
    | None => []
    end
  else [].

(** The handle [ensureRaf] leaves in [_rafId], and the world it leaves. *)
Definition armed (w : World) : World :=
  if Nat.eqb (_rafId (this w)) 0 then
    let id := S (raf_counter (window w)) in
    {| this := set_rafId id (this w);
       window := set_raf id (raf_pending (window w) ++ [id]) (window w) |}
  else w.

(** The tracker after the blend of [_onScroll], before the tick is re-armed. *)
Definition blended (t : Tracker) (b : Browser) : Tracker :=
  let i := instantaneous (sampleMode t) (scrollY b - _lastScrollY t)
             (deltaT_of (now b) (_lastTime t)) in
  let v := _velocity t + (_velocity t + i - _velocity t) * responsiveness t in
  set_velocity (clamp v (- maxVelocity t) (maxVelocity t))
    (set_lastTime (now b) (set_lastScrollY (scrollY b) t)).

(** The tracker after the decay of [_onRaf]: friction, attraction, snap. *)
Definition decayed (t : Tracker) : Tracker :=
  let v := _velocity t * friction t * (1 - attraction t) in
  set_velocity (if Rltb (Rabs v) (threshold t) then 0 else v) t.

(** One publish with every value zero, on element [e]. *)
Definition zero_writes (e : Element) : list StyleWrite :=
  [ (elem_id e, "--scroll-velocity"%string, 0);
    (elem_id e, "--scroll-velocity-abs"%string, 0);
    (elem_id e, "--scroll-velocity-pow"%string, 0);
    (elem_id e, "--scroll-velocity-raw"%string, 0) ].

(** ** Traces: what the browser does to a started tracker *)

Inductive Event :=
  | Scroll (y time : R)            (* a scroll event *)
  | Frame                          (* a display refresh *)
  | MotionPreference (on : bool).  (* the user changes the reduced-motion setting *)

Definition step (e : Event) : M unit :=
  match e with
  | Scroll y time => scroll_event y time
  | Frame => animation_frame
  | MotionPreference on => updateWindow (set_reduced_motion on)
  end.

Fixpoint run_events (es : list Event) : M unit :=
  match es with
  | [] => ret tt
  | e :: es' => step e ;; run_events es'
  end.

(** [n] calls of a callback in a row. *)
Fixpoint repeat_call (n : nat) (cb : M unit) : M unit :=
  match n with
  | O => ret tt
  | S n' => cb ;; repeat_call n' cb
  end.

(** What no browser event changes: the clamp bound and the registration of
    the scroll listener. *)
Definition same_setup (w w' : World) : Prop :=
  maxVelocity (this w') = maxVelocity (this w) /\
  scroll_listener (window w') = scroll_listener (window w).


(** ** A concrete page *)

Definition page_body : Element := {| elem_id := 1; elem_has_style := true |}.

(** A browser at rest: top of the page, clock at 0, nothing requested. *)
Definition idle_window : Browser :=
  {| document_body := JObj page_body; scrollY := 0; now := 0;
     reduced_motion := false; scroll_listener := false;
     raf_counter := 0; raf_pending := []; style_log := [] |}.

(** The element that receives output, if output is enabled:
    [writeCSSVariables] is on and the target has a [style]. *)
Definition output_element (t : Tracker) : option Element :=
  if writeCSSVariables t then styled (target t) else None.

(** The publish of all-zero output on tracker [t]: four zero writes when
    output is enabled, nothing otherwise. *)
Definition zero_publish (t : Tracker) : list StyleWrite :=
  match output_element t with
  | Some e => zero_writes e
  | None => []
  end.

(** ** The decay scenario: defaults, running, velocity 1 *)

(** A running tracker with the default friction, attraction and threshold,
    reduced motion not in the way, one tick requested, at velocity [v]. *)
Definition decaying (w : World) (v : R) : Prop :=
  _isRunning (this w) = true /\
  respectReducedMotion (this w) && reduced_motion (window w) = false /\
  friction (this w) = 0.92 /\
  attraction (this w) = 0.04 /\
  threshold (this w) = 0.02 /\
  _velocity (this w) = v /\
  (exists id : nat, raf_pending (window w) = [id]).

(** A tracker built with the defaults on [page_body] and started, with its
    velocity put at [v]. *)
Definition started_at (v : R) : World :=
  let w := exec start {| this := constructor (JObj page_body) ∅; window := idle_window |} in
  {| this := set_velocity v (this w); window := window w |}.

(** ** Partial sums of the series of [exp (-x)] *)

(** The terms of the series of [exp (-x)], without their signs. *)
Definition exp_term (x : R) (i : nat) : R := x ^ i / INR (fact i).

(** The even partial sum of order 8, as a polynomial. *)
Definition exp_upper (x : R) : R :=
  1 - x + x^2 / 2 - x^3 / 6 + x^4 / 24 - x^5 / 120 + x^6 / 720
  - x^7 / 5040 + x^8 / 40320.

(** The odd partial sum of order 9. *)
Definition exp_lower (x : R) : R := exp_upper x - x^9 / 362880.


(** ** The public methods and the browser events, in any order *)

Inductive Action :=
  | CallStart                        (* sv.start() *)
  | CallStop                         (* sv.stop() *)
  | CallSetOptions (o : Options)     (* sv.setOptions(o) *)
  | FromBrowser (e : Event).

Definition perform (a : Action) : M unit :=
  match a with
  | CallStart => start
  | CallStop => stop
  | CallSetOptions o => update (setOptions o)
  | FromBrowser e => step e
  end.

Fixpoint run_actions (l : list Action) : M unit :=
  match l with
  | [] => ret tt
  | a :: l' => perform a ;; run_actions l'
  end.

(** The tick handle, the scheduler, the listener and the velocity agree:
    the only requested frame is the one [_rafId] names, the listener is
    registered exactly while running, a stopped tracker holds no handle and
    no velocity, and a velocity other than 0 has a tick requested. *)
Definition consistent (w : World) : Prop :=
  raf_pending (window w) =
    (if Nat.eqb (_rafId (this w)) 0 then [] else [_rafId (this w)]) /\
  scroll_listener (window w) = _isRunning (this w) /\
  (_isRunning (this w) = false -> _rafId (this w) = 0%nat) /\
  (_isRunning (this w) = false -> _velocity (this w) = 0) /\
  (_velocity (this w) <> 0 -> _rafId (this w) <> 0%nat).

(** What [setOptions] has no assignment for. *)
Definition internal (t : Tracker) : bool * nat * R * R * R :=
  (_isRunning t, _rafId t, _velocity t, _lastScrollY t, _lastTime t).

(** What only [setOptions] and the constructor assign. *)
Definition config (t : Tracker)
    : JSValue * JSValue * R * R * R * R * R * bool * bool :=
  (target t, sampleMode t, responsiveness t, friction t, attraction t,
   threshold t, maxVelocity t, writeCSSVariables t, respectReducedMotion t).

(** Is the action a call of [setOptions]? *)
Definition reconfigures (a : Action) : bool :=
  match a with
  | CallSetOptions _ => true
  | _ => false
  end.

(** The value a numeric field has after
    [if ("k" in o && typeof o.k === "number") this.f = o.k]. *)
Definition merge_number (o : Options) (k : string) (prev : R) : R :=
  if has o k then num_or (prop o k) prev else prev.

(** The value [pow] that [_writeCSS(normalized)] writes: a boost of the
    middle of the range, capped at 1. *)
Definition pow_of (normalized : R) : R :=
  Rmin 1 (Math_pow (Rabs normalized) 0.7 * 1.35).

(** A style write whose value is in the range of its property:
    [[-1,1]] for the normalized velocity, [[0,1]] for its absolute value and
    for the boosted value; the raw velocity has no range. *)
Definition in_range (sw : StyleWrite) : Prop :=
  let '(_, name, value) := sw in
  (name = "--scroll-velocity"%string -> -1 <= value <= 1) /\
  (name = "--scroll-velocity-abs"%string -> 0 <= value <= 1) /\
  (name = "--scroll-velocity-pow"%string -> 0 <= value <= 1).

(** What an action adds to the style writes. *)
Definition adds (w w' : World) (extra : list StyleWrite) : Prop :=
  style_log (window w') = style_log (window w) ++ extra /\
  Forall in_range extra /\
  (writeCSSVariables (this w) = false -> extra = []).


(** The option names [setOptions] looks for. *)
Definition known_options : list string :=
  [ "target"; "sampleMode"; "responsiveness"; "dampening"; "friction";
    "attraction"; "threshold"; "maxVelocity"; "writeCSSVariables";
    "respectReducedMotion" ]%string.

(** * Properties *)

(** ** Running methods *)

Lemma exec_bind {A B : Type} (m : M A) (k : A -> M B) (w : World) :
  exec (bind m k) w = exec (k (eval m w)) (exec m w).
Proof. unfold exec, eval, bind. destruct (m w); reflexivity. Qed.

Lemma eval_bind {A B : Type} (m : M A) (k : A -> M B) (w : World) :
  eval (bind m k) w = eval (k (eval m w)) (exec m w).
Proof. unfold exec, eval, bind. destruct (m w); reflexivity. Qed.

Lemma exec_ret {A : Type} (a : A) (w : World) : exec (ret a) w = w.
Proof. reflexivity. Qed.

Lemma world_eta (w : World) : {| this := this w; window := window w |} = w.
Proof. destruct w; reflexivity. Qed.

Lemma set_style_log_same (b : Browser) : set_style_log (style_log b) b = b.
Proof. destruct b; reflexivity. Qed.

Ltac run :=
  unfold exec, eval, bind, ret, getThis, getWindow, update, updateWindow, when;
  simpl.

(** ** Arithmetic of the helpers *)

Lemma clamp_abs (x m : R) : 0 <= m -> Rabs (clamp x (- m) m) <= m.
Proof.
  intros Hm. unfold clamp, Rmax, Rmin.
  repeat destruct (Rle_dec _ _); apply Rabs_le; lra.
Qed.

Lemma clamp_range (x lo hi : R) : lo <= hi -> lo <= clamp x lo hi <= hi.
Proof.
  intros H. unfold clamp, Rmax, Rmin.
  repeat destruct (Rle_dec _ _); lra.
Qed.

Lemma clamp_inside (x lo hi : R) : lo <= x <= hi -> clamp x lo hi = x.
Proof.
  intros H. unfold clamp, Rmax, Rmin.
  repeat destruct (Rle_dec _ _); lra.
Qed.

Lemma Rltb_true (x y : R) : x < y -> Rltb x y = true.
Proof. intros H. unfold Rltb. destruct (Rlt_dec x y); [reflexivity | contradiction]. Qed.

Lemma Rltb_false (x y : R) : y <= x -> Rltb x y = false.
Proof. intros H. unfold Rltb. destruct (Rlt_dec x y); [lra | reflexivity]. Qed.

Lemma Rleb_true (x y : R) : x <= y -> Rleb x y = true.
Proof. intros H. unfold Rleb. destruct (Rle_dec x y); [reflexivity | contradiction]. Qed.

Lemma Rleb_false (x y : R) : y < x -> Rleb x y = false.
Proof. intros H. unfold Rleb. destruct (Rle_dec x y); [lra | reflexivity]. Qed.

(** ** What each method does to the world *)

Lemma writeCSS_exec (n : R) (w : World) :
  exec (_writeCSS n) w =
  {| this := this w;
     window := set_style_log (style_log (window w) ++ css_writes (this w) n) (window w) |}.
Proof.
  destruct w as [t b]. unfold _writeCSS, css_writes, setProperty. run.
  destruct (writeCSSVariables t); simpl.
  2:{ rewrite app_nil_r, set_style_log_same. reflexivity. }
  destruct (target t) as [| |c|r|s|e]; simpl;
    try (rewrite app_nil_r, set_style_log_same; reflexivity).
  - destruct c; simpl; rewrite app_nil_r, set_style_log_same; reflexivity.
  - destruct (Req_dec_T r 0); simpl; rewrite app_nil_r, set_style_log_same; reflexivity.
  - destruct (negb _); simpl; rewrite app_nil_r, set_style_log_same; reflexivity.
  - destruct (elem_has_style e); simpl.
    + unfold set_style_log; simpl. rewrite <- !app_assoc. reflexivity.
    + rewrite app_nil_r, set_style_log_same. reflexivity.
Qed.

Lemma ensureRaf_exec (w : World) : exec ensureRaf w = armed w.
Proof.
  destruct w as [t b]. unfold ensureRaf, armed, requestAnimationFrame. run.
  destruct (Nat.eqb (_rafId t) 0); reflexivity.
Qed.

Lemma armed_this (w : World) :
  this (armed w) =
  set_rafId (if Nat.eqb (_rafId (this w)) 0 then S (raf_counter (window w))
             else _rafId (this w)) (this w).
Proof.
  unfold armed. destruct (Nat.eqb (_rafId (this w)) 0) eqn:E; simpl; auto.
  destruct w as [t b]; destruct t; reflexivity.
Qed.

Lemma onScroll_exec (w : World) :
  exec _onScroll w =
  if respectReducedMotion (this w) && reduced_motion (window w) then
    armed {| this := set_velocity 0 (this w);
             window := set_style_log
               (style_log (window w) ++ css_writes (set_velocity 0 (this w)) 0)
               (window w) |}
  else armed {| this := blended (this w) (window w); window := window w |}.
Proof.
  unfold _onScroll. rewrite !exec_bind. 
  change (eval getThis w) with (this w).
  change (exec getThis w) with w.
  change (eval getWindow w) with (window w).
  change (exec getWindow w) with w.
  destruct (respectReducedMotion (this w) && reduced_motion (window w)).
  - rewrite !exec_bind, ensureRaf_exec, writeCSS_exec. reflexivity.
  - rewrite !exec_bind, ensureRaf_exec. destruct w as [t b]; destruct t; reflexivity.
Qed.

Lemma getNormalizedVelocity_exec (w : World) : exec getNormalizedVelocity w = w.
Proof.
  unfold getNormalizedVelocity. run.
  destruct (Rleb (maxVelocity (this w)) 0); reflexivity.
Qed.

Lemma onRaf_exec (w : World) :
  exec _onRaf w =
  let t0 := set_rafId 0 (this w) in
  let t1 := if respectReducedMotion (this w) && reduced_motion (window w)
            then t0 else decayed t0 in
  let n := eval getNormalizedVelocity {| this := t1; window := window w |} in
  let b1 := set_style_log (style_log (window w) ++ css_writes t1 n) (window w) in
  if _isRunning t1 && Rltb 0 (Rabs (_velocity t1)) then
    let id := S (raf_counter b1) in
    {| this := set_rafId id t1; window := set_raf id (raf_pending b1 ++ [id]) b1 |}
  else {| this := t1; window := b1 |}.
Proof.
  unfold _onRaf. rewrite !exec_bind.
  set (w0 := exec (update (set_rafId 0)) w).
  change (eval getThis w0) with (this w0).
  change (exec getThis w0) with w0.
  change (eval getWindow w0) with (window w0).
  change (exec getWindow w0) with w0.
  change (this w0) with (set_rafId 0 (this w)).
  change (window w0) with (window w).
  change (respectReducedMotion (set_rafId 0 (this w))) with (respectReducedMotion (this w)).
  set (rm := respectReducedMotion (this w) && reduced_motion (window w)).
  assert (Hd : exec (when (negb rm)
      (update (fun t => set_velocity (_velocity t * friction t) t) ;;
       update (fun t => set_velocity (_velocity t * (1 - attraction t)) t) ;;
       t <- getThis ;;
       when (Rltb (Rabs (_velocity t)) (threshold t)) (update (set_velocity 0)))) w0 =
     {| this := if rm then set_rafId 0 (this w) else decayed (set_rafId 0 (this w));
        window := window w |}).
  { destruct rm; simpl.
    - reflexivity.
    - unfold decayed. run. destruct w as [t b]; simpl.
      destruct (Rltb _ _); destruct t; reflexivity. }
  rewrite Hd. clear Hd.
  set (t1 := if rm then set_rafId 0 (this w) else decayed (set_rafId 0 (this w))).
  rewrite getNormalizedVelocity_exec.
  rewrite ?exec_bind, writeCSS_exec. simpl.
  set (n := eval getNormalizedVelocity _).
  change (eval getThis ?x) with (this x). simpl.
  destruct (_isRunning t1 && Rltb 0 (Rabs (_velocity t1))); simpl.
  - unfold requestAnimationFrame. run. reflexivity.
  - reflexivity.
Qed.

Lemma scroll_event_exec (y time : R) (w : World) :
  scroll_listener (window w) = true ->
  exec (scroll_event y time) w =
  exec _onScroll {| this := this w; window := set_now time (set_scrollY y (window w)) |}.
Proof.
  intros Hl. unfold scroll_event. rewrite !exec_bind.
  set (w1 := exec (updateWindow _) w).
  change (eval getWindow w1) with (window w1).
  change (exec getWindow w1) with w1.
  change (scroll_listener (window w1)) with (scroll_listener (window w)).
  rewrite Hl. reflexivity.
Qed.

(** ** The clamp invariant of the blend step *)

Lemma onScroll_velocity_bound (w : World) :
  0 <= maxVelocity (this w) ->
  Rabs (_velocity (this (exec _onScroll w))) <= maxVelocity (this (exec _onScroll w)).
Proof.
  intros Hm. rewrite onScroll_exec.
  destruct (respectReducedMotion (this w) && reduced_motion (window w));
    rewrite armed_this; simpl.
  - rewrite Rabs_R0. exact Hm.
  - apply clamp_abs. exact Hm.
Qed.

Lemma same_setup_refl (w : World) : same_setup w w.
Proof. split; reflexivity. Qed.

Lemma same_setup_trans (w1 w2 w3 : World) :
  same_setup w1 w2 -> same_setup w2 w3 -> same_setup w1 w3.
Proof. intros [H1 H2] [H3 H4]. split; congruence. Qed.

Lemma onScroll_same_setup (w : World) : same_setup w (exec _onScroll w).
Proof.
  rewrite onScroll_exec.
  destruct (respectReducedMotion (this w) && reduced_motion (window w));
    unfold armed; simpl;
    match goal with |- context [Nat.eqb ?a 0] => destruct (Nat.eqb a 0) end;
    split; reflexivity.
Qed.

Lemma onRaf_same_setup (w : World) : same_setup w (exec _onRaf w).
Proof.
  rewrite onRaf_exec. cbv zeta.
  destruct (respectReducedMotion (this w) && reduced_motion (window w));
    match goal with |- context [if ?c then _ else _] => destruct c end;
    split; reflexivity.
Qed.

Lemma run_callbacks_same_setup (ids : list nat) (w : World) :
  same_setup w (exec (run_callbacks ids _onRaf) w).
Proof.
  revert w. induction ids as [|i ids IH]; intros w; simpl.
  - apply same_setup_refl.
  - rewrite exec_bind.
    eapply same_setup_trans; [apply onRaf_same_setup | apply IH].
Qed.

Lemma step_same_setup (e : Event) (w : World) : same_setup w (exec (step e) w).
Proof.
  destruct e as [y time| |on]; simpl.
  - unfold scroll_event. rewrite !exec_bind.
    set (w1 := exec (updateWindow _) w).
    change (eval getWindow w1) with (window w1).
    change (exec getWindow w1) with w1.
    assert (H1 : same_setup w w1) by (split; reflexivity).
    destruct (scroll_listener (window w1)); simpl.
    + eapply same_setup_trans; [exact H1 | apply onScroll_same_setup].
    + exact H1.
  - unfold animation_frame. rewrite !exec_bind.
    eapply same_setup_trans; [| apply run_callbacks_same_setup].
    split; reflexivity.
  - split; reflexivity.
Qed.

Lemma run_events_same_setup (es : list Event) (w : World) :
  same_setup w (exec (run_events es) w).
Proof.
  revert w. induction es as [|e es IH]; intros w; simpl.
  - apply same_setup_refl.
  - rewrite exec_bind.
    eapply same_setup_trans; [apply step_same_setup | apply IH].
Qed.

Lemma run_events_app (es1 es2 : list Event) (w : World) :
  exec (run_events (es1 ++ es2)) w = exec (run_events es2) (exec (run_events es1) w).
Proof.
  revert w. induction es1 as [|e es1 IH]; intros w; simpl.
  - reflexivity.
  - rewrite !exec_bind. apply IH.
Qed.

(** The blend of the source, [v + (target - v) * r] with
    [target = v + instantaneous], is the weighted mean of the spec. *)
Lemma blend_formula (v i r : R) : v + (v + i - v) * r = v * (1 - r) + (v + i) * r.
Proof. ring. Qed.

Lemma onScroll_velocity (w : World) :
  _velocity (this (exec _onScroll w)) =
  if respectReducedMotion (this w) && reduced_motion (window w) then 0
  else _velocity (blended (this w) (window w)).
Proof.
  rewrite onScroll_exec.
  destruct (respectReducedMotion (this w) && reduced_motion (window w));
    rewrite armed_this; reflexivity.
Qed.

(** C1.  For a positive [maxVelocity], whatever scroll events, display
    refreshes and changes of the reduced-motion setting a listening tracker
    has been through, the next scroll event blends
    [velocity := velocity*(1-responsiveness) + (velocity + instantaneous)*responsiveness],
    clamps it, and leaves [|velocity| <= maxVelocity]. *)
Theorem blend_keeps_velocity_within_maxVelocity
    (w : World) (es : list Event) (y time : R) :
  0 < maxVelocity (this w) ->
  scroll_listener (window w) = true ->
  let w1 := exec (run_events es) w in
  let w' := exec (run_events (es ++ [Scroll y time])) w in
  let v := _velocity (this w1) in
  let r := responsiveness (this w1) in
  let i := instantaneous (sampleMode (this w1)) (y - _lastScrollY (this w1))
             (deltaT_of time (_lastTime (this w1))) in
  (respectReducedMotion (this w1) && reduced_motion (window w1) = false ->
   _velocity (this w') =
     clamp (v * (1 - r) + (v + i) * r) (- maxVelocity (this w)) (maxVelocity (this w))) /\
  maxVelocity (this w') = maxVelocity (this w) /\
  Rabs (_velocity (this w')) <= maxVelocity (this w').
Proof.
  intros Hm Hl w1 w' v r i.
  destruct (run_events_same_setup es w) as [Hm' Hl']. fold w1 in Hm', Hl'.
  assert (Hw' : w' = exec _onScroll
            {| this := this w1; window := set_now time (set_scrollY y (window w1)) |}).
  { unfold w'. rewrite run_events_app. fold w1.
    simpl. rewrite exec_bind, exec_ret.
    apply scroll_event_exec. rewrite Hl'. exact Hl. }
  split; [|split].
  - intros Hrm. rewrite Hw', onScroll_velocity. simpl.
    rewrite Hrm. rewrite blend_formula, Hm'. reflexivity.
  - rewrite Hw'. rewrite (proj1 (onScroll_same_setup _)). exact Hm'.
  - rewrite Hw'. apply onScroll_velocity_bound. simpl. rewrite Hm'. lra.
Qed.

(** ** Normalisation *)

(** C2.  [getNormalizedVelocity()] returns [clamp(velocity / maxVelocity, -1, 1)]
    for a positive [maxVelocity] and exactly 0 for [maxVelocity <= 0]; the
    result always lies in [[-1, 1]], and the call leaves tracker and browser
    as they were. *)
Theorem getNormalizedVelocity_spec (w : World) :
  let r := eval getNormalizedVelocity w in
  (0 < maxVelocity (this w) ->
     r = clamp (_velocity (this w) / maxVelocity (this w)) (-1) 1) /\
  (maxVelocity (this w) <= 0 -> r = 0) /\
  -1 <= r <= 1 /\
  exec getNormalizedVelocity w = w.
Proof.
  unfold getNormalizedVelocity. run.
  destruct (Rle_dec (maxVelocity (this w)) 0) as [Hle|Hgt].
  - rewrite (Rleb_true _ _ Hle). simpl. repeat split; intros; lra.
  - apply Rnot_le_lt in Hgt. rewrite (Rleb_false _ _ Hgt). simpl.
    repeat split; intros; try lra.
    + apply clamp_range; lra.
    + apply clamp_range; lra.
Qed.

(** ** The elapsed time of a sample *)

Lemma js_div_nonzero (x y : R) : y <> 0 -> js_div x y = Some (x / y).
Proof. intros H. unfold js_div. destruct (Req_dec_T y 0); [contradiction | reflexivity]. Qed.

Lemma js_log_pos (x : R) : 0 < x -> js_log x = Some (ln x).
Proof. intros H. unfold js_log. destruct (Rlt_dec 0 x); [reflexivity | contradiction]. Qed.

Lemma capped_ge_4 (deltaT : R) : 4 <= Rmax deltaT 4.
Proof. apply Rmax_r. Qed.

(** Every division by a time and the logarithm of [instantaneous] are finite,
    whatever the elapsed time. *)
Lemma instantaneous_checked_total (mode : JSValue) (deltaY deltaT : R) :
  instantaneous_checked mode deltaY deltaT = Some (instantaneous mode deltaY deltaT).
Proof.
  unfold instantaneous_checked, instantaneous.
  destruct (str_is mode "time").
  - unfold Rltb. destruct (Rlt_dec 0 deltaT) as [Hp|Hn]; simpl.
    + rewrite js_div_nonzero by lra. reflexivity.
    + reflexivity.
  - destruct (str_is mode "hybrid"); [|reflexivity].
    pose proof (capped_ge_4 deltaT) as H4. cbv zeta.
    destruct (Rltb (Rmax deltaT 4) 10); [reflexivity|].
    destruct (Rltb 25 (Rmax deltaT 4)).
    + rewrite js_log_pos by lra. simpl. rewrite js_div_nonzero by lra. reflexivity.
    + rewrite js_div_nonzero by lra. reflexivity.
Qed.

Lemma deltaT_of_zero (now last : R) : now - last = 0 -> deltaT_of now last = 16.7.
Proof. intros H. unfold deltaT_of. destruct (Req_dec_T (now - last) 0); [reflexivity | contradiction]. Qed.

Lemma deltaT_of_nonzero (now last : R) : now - last <> 0 -> deltaT_of now last = now - last.
Proof. intros H. unfold deltaT_of. destruct (Req_dec_T (now - last) 0); [contradiction | reflexivity]. Qed.

(** C3, as stated, fails: a negative elapsed time is kept.  With the clock
    read at 10 after a sample stamped 15 the elapsed time is -5, and it is
    -5, not 16.7, that the sampling modes receive; in time mode the estimate
    is then 0, where an elapsed time of 16.7 would have given 100 / 16.7 * 12. *)
Lemma negative_elapsed_time_is_kept :
  10 - 15 < 0 /\
  deltaT_of 10 15 = -5 /\
  deltaT_of 10 15 <> 16.7 /\
  instantaneous (JStr "time") 100 (deltaT_of 10 15) = 0 /\
  instantaneous (JStr "time") 100 16.7 <> 0.
Proof.
  assert (H : deltaT_of 10 15 = -5) by (rewrite deltaT_of_nonzero; lra).
  repeat split.
  - lra.
  - exact H.
  - rewrite H. lra.
  - rewrite H. unfold instantaneous. simpl. rewrite Rltb_false by lra. lra.
  - unfold instantaneous. simpl. rewrite Rltb_true by lra. lra.
Qed.

(** C3, amended.  An elapsed time of exactly zero is replaced by 16.7 ms; any
    other elapsed time, a negative one included, is passed on as it is.  A
    negative one is then never divided by: time mode returns 0 for it and
    hybrid mode divides by [max(deltaT, 4) = 4].  So in every mode and for
    every sample the divisions by a time and the logarithm are finite. *)
Theorem elapsed_time_fallback (mode : JSValue) (deltaY now last : R) :
  let deltaT := deltaT_of now last in
  (now - last = 0 -> deltaT = 16.7) /\
  (now - last <> 0 -> deltaT = now - last) /\
  (now - last < 0 ->
     instantaneous (JStr "time") deltaY deltaT = 0 /\ Rmax deltaT 4 = 4) /\
  instantaneous_checked mode deltaY deltaT = Some (instantaneous mode deltaY deltaT).
Proof.
  cbv zeta. repeat split.
  - apply deltaT_of_zero.
  - apply deltaT_of_nonzero.
  - rewrite deltaT_of_nonzero by lra. unfold instantaneous. simpl.
    rewrite Rltb_false by lra. lra.
  - rewrite deltaT_of_nonzero by lra. apply Rmax_right. lra.
  - apply instantaneous_checked_total.
Qed.

(** ** Options: [responsiveness] and its old name [dampening] *)

Lemma prop_singleton_eq (k : string) (v : JSValue) :
  prop {[ k := v ]} k = v.
Proof. unfold prop. rewrite lookup_singleton_eq. reflexivity. Qed.

Lemma prop_singleton_ne (k k' : string) (v : JSValue) :
  k <> k' -> prop {[ k := v ]} k' = JUndefined.
Proof. intros H. unfold prop. rewrite lookup_singleton_ne by exact H. reflexivity. Qed.

Lemma has_singleton_eq (k : string) (v : JSValue) :
  has {[ k := v ]} k = true.
Proof.
  unfold has. apply bool_decide_eq_true. rewrite lookup_singleton_eq. eexists; reflexivity.
Qed.

Lemma has_singleton_ne (k k' : string) (v : JSValue) :
  k <> k' -> has {[ k := v ]} k' = false.
Proof.
  intros H. unfold has. apply bool_decide_eq_false.
  rewrite lookup_singleton_ne by exact H. intros [x Hx]. discriminate.
Qed.

Lemma set_if_number_eq (k : string) (x : R) (set : R -> Tracker -> Tracker) (t : Tracker) :
  set_if_number {[ k := JNum x ]} k set t = set x t.
Proof. unfold set_if_number. rewrite has_singleton_eq, prop_singleton_eq. reflexivity. Qed.

Lemma set_if_number_ne (k k' : string) (v : JSValue)
    (set : R -> Tracker -> Tracker) (t : Tracker) :
  k <> k' -> set_if_number {[ k := v ]} k' set t = t.
Proof. intros H. unfold set_if_number. rewrite has_singleton_ne by exact H. reflexivity. Qed.

(** In [setOptions] the two names do the same. *)
Lemma setOptions_dampening_is_responsiveness (x : R) (t : Tracker) :
  setOptions {[ "dampening"%string := JNum x ]} t = set_responsiveness x t /\
  setOptions {[ "responsiveness"%string := JNum x ]} t = set_responsiveness x t.
Proof.
  split; unfold setOptions;
    rewrite ?set_if_number_eq;
    rewrite ?set_if_number_ne by discriminate;
    rewrite ?has_singleton_ne by discriminate; reflexivity.
Qed.

(** C5 at the constructor: for every number [x],
    [new ScrollVelocity({dampening: x})] leaves [responsiveness] at its
    default 0.35, where [new ScrollVelocity({responsiveness: x})] sets it to
    [x]; through [setOptions] both names give [x]. *)
Theorem constructor_ignores_dampening (body : JSValue) (x : R) :
  responsiveness (constructor body {[ "dampening"%string := JNum x ]}) = 0.35 /\
  responsiveness (constructor body {[ "responsiveness"%string := JNum x ]}) = x /\
  responsiveness (setOptions {[ "dampening"%string := JNum x ]} (constructor body ∅)) = x /\
  responsiveness (setOptions {[ "responsiveness"%string := JNum x ]} (constructor body ∅)) = x.
Proof.
  split; [|split; [|split]].
  - simpl. rewrite prop_singleton_ne by discriminate. reflexivity.
  - simpl. rewrite prop_singleton_eq. reflexivity.
  - rewrite (proj1 (setOptions_dampening_is_responsiveness _ _)). reflexivity.
  - rewrite (proj2 (setOptions_dampening_is_responsiveness _ _)). reflexivity.
Qed.

(** ** The decay step *)

Lemma onRaf_velocity (w : World) :
  _velocity (this (exec _onRaf w)) =
  if respectReducedMotion (this w) && reduced_motion (window w)
  then _velocity (this w)
  else _velocity (decayed (this w)).
Proof.
  rewrite onRaf_exec. cbv zeta.
  destruct (respectReducedMotion (this w) && reduced_motion (window w));
    match goal with |- context [if ?c then _ else _] => destruct c end;
    reflexivity.
Qed.

Lemma decayed_velocity (t : Tracker) :
  _velocity (decayed t) =
  let v := _velocity t * friction t * (1 - attraction t) in
  if Rltb (Rabs v) (threshold t) then 0 else v.
Proof. reflexivity. Qed.

Lemma decayed_zero (t : Tracker) : _velocity t = 0 -> _velocity (decayed t) = 0.
Proof.
  intros H. rewrite decayed_velocity. cbv zeta. rewrite H.
  destruct (Rltb _ _); lra.
Qed.

Lemma shrink_abs (v f a : R) :
  -1 <= f <= 1 -> 0 <= a <= 1 -> Rabs (v * f * (1 - a)) <= Rabs v.
Proof.
  intros Hf Ha. rewrite !Rabs_mult.
  assert (H1 : Rabs f <= 1) by (apply Rabs_le; lra).
  assert (H2 : Rabs (1 - a) <= 1) by (apply Rabs_le; lra).
  pose proof (Rabs_pos v) as Hv. pose proof (Rabs_pos f) as Hf0.
  pose proof (Rabs_pos (1 - a)) as Ha0.
  assert (H3 : Rabs v * Rabs f <= Rabs v * 1)
    by (apply Rmult_le_compat_l; assumption).
  assert (H4 : Rabs v * Rabs f * Rabs (1 - a) <= Rabs v * Rabs f * 1).
  { apply Rmult_le_compat_l; [|assumption]. apply Rmult_le_pos; assumption. }
  lra.
Qed.

(** C6, as stated, fails: [friction <= 1] admits friction = -2.  With
    attraction 0 a velocity of 1 then decays to -2. *)
Lemma negative_friction_grows_velocity :
  let w := {| this := set_velocity 1
                (constructor (JObj page_body)
                   {[ "friction"%string := JNum (-2); "attraction"%string := JNum 0 ]});
              window := idle_window |} in
  friction (this w) <= 1 /\
  0 <= attraction (this w) <= 1 /\
  _velocity (this (exec _onRaf w)) = -2 /\
  ~ Rabs (_velocity (this (exec _onRaf w))) <= Rabs (_velocity (this w)).
Proof.
  cbv zeta.
  assert (Hv : _velocity (this (exec _onRaf
     {| this := set_velocity 1
                (constructor (JObj page_body)
                   {[ "friction"%string := JNum (-2); "attraction"%string := JNum 0 ]});
        window := idle_window |})) = -2).
  { rewrite onRaf_velocity. simpl.
    change (prop _ "respectReducedMotion") with JUndefined.
    change (prop _ "friction") with (JNum (-2)).
    change (prop _ "attraction") with (JNum 0).
    change (prop _ "threshold") with JUndefined. simpl.
    rewrite Rltb_false.
    - lra.
    - replace (1 * -2 * (1 - 0)) with (-2) by lra.
      rewrite Rabs_left by lra. lra. }
  split; [|split; [|split]].
  - simpl. change (prop _ "friction") with (JNum (-2)). simpl. lra.
  - simpl. change (prop _ "attraction") with (JNum 0). simpl. lra.
  - exact Hv.
  - rewrite Hv. simpl. rewrite Rabs_left by lra. rewrite Rabs_right by lra. lra.
Qed.

(** C6, amended.  For every velocity and every config with
    [-1 <= friction <= 1] and attraction in [[0,1]], a tick leaves the
    magnitude of the velocity no larger than it was. *)
Theorem decay_does_not_grow_velocity (w : World) :
  -1 <= friction (this w) <= 1 ->
  0 <= attraction (this w) <= 1 ->
  Rabs (_velocity (this (exec _onRaf w))) <= Rabs (_velocity (this w)).
Proof.
  intros Hf Ha. rewrite onRaf_velocity.
  destruct (respectReducedMotion (this w) && reduced_motion (window w)).
  - lra.
  - rewrite decayed_velocity. cbv zeta.
    destruct (Rltb _ _).
    + rewrite Rabs_R0. apply Rabs_pos.
    + apply shrink_abs; assumption.
Qed.

(** ** The tick loop comes to rest *)

(** A tick that leaves the velocity at zero requests no further tick. *)
Lemma onRaf_stops_at_zero (w : World) :
  _velocity (this (exec _onRaf w)) = 0 ->
  _rafId (this (exec _onRaf w)) = 0%nat /\
  raf_pending (window (exec _onRaf w)) = raf_pending (window w).
Proof.
  rewrite onRaf_exec. cbv zeta.
  set (t1 := if respectReducedMotion (this w) && reduced_motion (window w)
             then set_rafId 0 (this w) else decayed (set_rafId 0 (this w))).
  assert (Hid : _rafId t1 = 0%nat) by (unfold t1; destruct (_ && _); reflexivity).
  destruct (_isRunning t1) eqn:Hrun; simpl.
  - unfold Rltb. destruct (Rlt_dec 0 (Rabs (_velocity t1))) as [Hpos|Hz]; simpl.
    + intros Hv. rewrite Hv, Rabs_R0 in Hpos. lra.
    + intros _. split; [exact Hid | reflexivity].
  - intros _. split; [exact Hid | reflexivity].
Qed.

Lemma onRaf_at_rest (w : World) :
  _velocity (this w) = 0 ->
  _velocity (this (exec _onRaf w)) = 0 /\
  _rafId (this (exec _onRaf w)) = 0%nat /\
  raf_pending (window (exec _onRaf w)) = raf_pending (window w).
Proof.
  intros Hv.
  assert (H0 : _velocity (this (exec _onRaf w)) = 0).
  { rewrite onRaf_velocity. destruct (_ && _); [exact Hv | apply decayed_zero; exact Hv]. }
  split; [exact H0 | apply onRaf_stops_at_zero; exact H0].
Qed.

Lemma repeat_onRaf_at_rest (n : nat) (w : World) :
  _velocity (this w) = 0 -> _rafId (this w) = 0%nat ->
  let wn := exec (repeat_call n _onRaf) w in
  _velocity (this wn) = 0 /\ _rafId (this wn) = 0%nat /\
  raf_pending (window wn) = raf_pending (window w).
Proof.
  revert w. induction n as [|n IH]; intros w Hv Hid; simpl.
  - auto.
  - rewrite exec_bind.
    destruct (onRaf_at_rest w Hv) as (Hv1 & Hid1 & Hp1).
    destruct (IH (exec _onRaf w) Hv1 Hid1) as (Hv2 & Hid2 & Hp2).
    cbv zeta in *. rewrite Hp2, Hp1. auto.
Qed.

Lemma set_raf_same (b : Browser) : set_raf (raf_counter b) (raf_pending b) b = b.
Proof. destruct b; reflexivity. Qed.

(** With nothing requested, a display refresh runs no callback. *)
Lemma frames_idle (n : nat) (w : World) :
  raf_pending (window w) = [] -> exec (frames n) w = w.
Proof.
  intros Hp. induction n as [|n IH]; simpl.
  - reflexivity.
  - rewrite exec_bind. unfold animation_frame. rewrite !exec_bind.
    change (eval getWindow w) with (window w).
    change (exec getWindow w) with w.
    rewrite Hp. simpl. rewrite exec_ret.
    assert (Hw : exec (updateWindow (set_raf (raf_counter (window w)) [])) w = w).
    { unfold exec, updateWindow. simpl. rewrite <- Hp, set_raf_same. apply world_eta. }
    rewrite Hw. exact IH.
Qed.

(** ** Publishing zero *)

Lemma Math_pow_zero (y : R) : Math_pow 0 y = 0.
Proof. unfold Math_pow. destruct (Rle_dec 0 0); [reflexivity | lra]. Qed.

Lemma css_writes_zero (t : Tracker) :
  _velocity t = 0 -> css_writes t 0 = zero_publish t.
Proof.
  intros Hv. unfold css_writes, zero_publish, output_element, zero_writes.
  destruct (writeCSSVariables t); [|reflexivity].
  destruct (styled (target t)) as [e|]; [|reflexivity].
  rewrite Hv, Rabs_R0, Math_pow_zero, Rmult_0_l.
  rewrite Rmin_right by lra. reflexivity.
Qed.

(** ** stop() *)

Lemma stop_exec_running (w : World) :
  _isRunning (this w) = true ->
  exec stop w =
  let t' := set_velocity 0 (set_rafId 0 (set_isRunning false (this w))) in
  let b1 := set_scroll_listener false (window w) in
  let b2 := if Nat.eqb (_rafId (this w)) 0 then b1
            else set_raf (raf_counter b1)
                   (List.filter (fun i => negb (Nat.eqb i (_rafId (this w)))) (raf_pending b1)) b1 in
  {| this := t'; window := set_style_log (style_log b2 ++ css_writes t' 0) b2 |}.
Proof.
  intros Hrun. unfold stop. rewrite !exec_bind.
  change (eval getThis w) with (this w).
  change (exec getThis w) with w.
  rewrite Hrun. simpl negb. cbv iota.
  rewrite !exec_bind, writeCSS_exec.
  destruct w as [t b]. unfold cancelAnimationFrame. run.
  destruct (Nat.eqb (_rafId t) 0); simpl; destruct t; reflexivity.
Qed.

(** C7.  [stop()] on a tracker that is not running changes nothing and
    writes nothing.  On a running tracker it removes the scroll listener,
    cancels the pending tick, sets the velocity to exactly 0 and [running] to
    false, and adds to the style writes exactly one publish of all-zero
    output when output is enabled and nothing when it is not; a second
    [stop()] then changes nothing. *)
Theorem stop_spec (w : World) :
  (_isRunning (this w) = false -> stop w = (tt, w)) /\
  (_isRunning (this w) = true ->
   let w' := exec stop w in
   _velocity (this w') = 0 /\
   _isRunning (this w') = false /\
   _rafId (this w') = 0%nat /\
   scroll_listener (window w') = false /\
   (_rafId (this w) <> 0%nat -> ~ In (_rafId (this w)) (raf_pending (window w'))) /\
   style_log (window w') = style_log (window w) ++ zero_publish (this w) /\
   exec stop w' = w').
Proof.
  split.
  - intros Hrun. unfold stop, bind, getThis, ret. rewrite Hrun. reflexivity.
  - intros Hrun w'. subst w'. rewrite (stop_exec_running w Hrun). cbv zeta.
    split; [reflexivity|]. split; [reflexivity|]. split; [reflexivity|].
    split; [destruct (Nat.eqb (_rafId (this w)) 0); reflexivity|].
    split; [|split].
    + intros Hid. destruct (Nat.eqb (_rafId (this w)) 0) eqn:E.
      * apply Nat.eqb_eq in E. contradiction.
      * simpl. intros Hin. apply filter_In in Hin. destruct Hin as [_ Hin].
        rewrite Nat.eqb_refl in Hin. discriminate.
    + rewrite css_writes_zero by reflexivity.
      destruct (Nat.eqb (_rafId (this w)) 0); reflexivity.
    + unfold exec, stop, bind, getThis, ret. simpl. reflexivity.
Qed.

(** ** Scroll samples under reduced motion *)


(** What scroll samples taken under reduced motion leave as they found it. *)
Lemma reduced_motion_scrolls_keep_last_sample (samples : list (R * R)) (w : World) :
  respectReducedMotion (this w) = true ->
  reduced_motion (window w) = true ->
  scroll_listener (window w) = true ->
  let w' := exec (run_events (map (fun s => Scroll (fst s) (snd s)) samples)) w in
  _lastScrollY (this w') = _lastScrollY (this w) /\
  _lastTime (this w') = _lastTime (this w) /\
  sampleMode (this w') = sampleMode (this w) /\
  responsiveness (this w') = responsiveness (this w) /\
  maxVelocity (this w') = maxVelocity (this w) /\
  respectReducedMotion (this w') = true /\
  scroll_listener (window w') = true /\
  (samples <> [] -> _velocity (this w') = 0).
Proof.
  revert w. induction samples as [|[y time] samples IH]; intros w Hr Hm Hl; simpl.
  - rewrite exec_ret. repeat split; auto. intros H; contradiction.
  - rewrite exec_bind. simpl.
    rewrite (scroll_event_exec y time w Hl), onScroll_exec. simpl.
    rewrite Hr, Hm. simpl.
    set (w1 := armed _).
    assert (H1 : this w1 = set_rafId (_rafId (this w1)) (set_velocity 0 (this w))).
    { unfold w1, armed. simpl. destruct (Nat.eqb (_rafId (this w)) 0); simpl.
      - reflexivity.
      - destruct w as [t b]; destruct t; reflexivity. }
    assert (H2 : reduced_motion (window w1) = true /\ scroll_listener (window w1) = true).
    { unfold w1, armed. simpl. destruct (Nat.eqb (_rafId (this w)) 0); simpl; auto. }
    destruct H2 as [Hm1 Hl1].
    assert (Hr1 : respectReducedMotion (this w1) = true) by (rewrite H1; exact Hr).
    destruct (IH w1 Hr1 Hm1 Hl1) as (A1 & A2 & A3 & A4 & A5 & A6 & A7 & A8).
    cbv zeta in *.
    rewrite A1, A2, A3, A4, A5, H1. simpl.
    repeat split; auto.
    intros _. destruct samples as [|s samples].
    + simpl. rewrite exec_ret, H1. reflexivity.
    + apply A8. discriminate.
Qed.

(** C10.  With reduced motion active and respected, the scroll handler sets
    the velocity to 0, publishes zero output, makes sure a tick is requested
    and leaves [_lastScrollY] and [_lastTime] as they were.  So after any
    number of samples under reduced motion, the first sample taken once the
    preference has cleared is measured from the last sample before the
    reduced-motion period. *)
Theorem reduced_motion_sample_keeps_last_sample
    (w : World) (samples : list (R * R)) (y time : R) :
  respectReducedMotion (this w) = true ->
  reduced_motion (window w) = true ->
  scroll_listener (window w) = true ->
  let w1 := exec _onScroll w in
  let w2 := exec (run_events (map (fun s => Scroll (fst s) (snd s)) samples)) w in
  let w3 := exec (run_events [MotionPreference false; Scroll y time]) w2 in
  (_velocity (this w1) = 0 /\
   style_log (window w1) = style_log (window w) ++ zero_publish (this w) /\
   _rafId (this w1) <> 0%nat /\
   (_rafId (this w) = 0%nat ->
      raf_pending (window w1) = raf_pending (window w) ++ [_rafId (this w1)]) /\
   _lastScrollY (this w1) = _lastScrollY (this w) /\
   _lastTime (this w1) = _lastTime (this w)) /\
  (_lastScrollY (this w2) = _lastScrollY (this w) /\
   _lastTime (this w2) = _lastTime (this w)) /\
  _velocity (this w3) =
    (let i := instantaneous (sampleMode (this w))
                (y - _lastScrollY (this w)) (deltaT_of time (_lastTime (this w))) in
     let v := _velocity (this w2) in
     clamp (v + (v + i - v) * responsiveness (this w))
       (- maxVelocity (this w)) (maxVelocity (this w))).
Proof.
  intros Hr Hm Hl w1 w2 w3. split; [|split].
  - unfold w1. rewrite onScroll_exec, Hr, Hm. simpl.
    rewrite css_writes_zero by reflexivity.
    change (zero_publish (set_velocity 0 (this w))) with (zero_publish (this w)).
    unfold armed. simpl.
    destruct (Nat.eqb (_rafId (this w)) 0) eqn:E; simpl.
    + repeat split; auto.
    + apply Nat.eqb_neq in E. repeat split; auto. intros H; contradiction.
  - destruct (reduced_motion_scrolls_keep_last_sample samples w Hr Hm Hl)
      as (A1 & A2 & _). split; assumption.
  - destruct (reduced_motion_scrolls_keep_last_sample samples w Hr Hm Hl)
      as (A1 & A2 & A3 & A4 & A5 & A6 & A7 & _).
    fold w2 in A1, A2, A3, A4, A5, A6, A7.
    unfold w3. simpl. rewrite !exec_bind, exec_ret.
    set (w2' := exec (updateWindow (set_reduced_motion false)) w2).
    rewrite (scroll_event_exec y time w2') by exact A7.
    rewrite onScroll_exec. simpl.
    rewrite andb_false_r. rewrite armed_this. simpl.
    rewrite A1, A2, A3, A4, A5. reflexivity.
Qed.

(** ** Thirty-two ticks from velocity 1 *)

Lemma animation_frame_one (w : World) (id : nat) :
  raf_pending (window w) = [id] ->
  exec animation_frame w =
  exec _onRaf {| this := this w; window := set_raf (raf_counter (window w)) [] (window w) |}.
Proof.
  intros Hp. unfold animation_frame. rewrite !exec_bind.
  change (eval getWindow w) with (window w).
  change (exec getWindow w) with w.
  rewrite Hp. simpl. rewrite exec_bind, exec_ret. reflexivity.
Qed.

Lemma frames_snoc (n : nat) (w : World) :
  exec (frames (S n)) w = exec animation_frame (exec (frames n) w).
Proof.
  revert w. induction n as [|n IH]; intros w.
  - simpl. rewrite exec_bind, !exec_ret. reflexivity.
  - change (frames (S (S n))) with (animation_frame ;; frames (S n)).
    rewrite exec_bind, IH. simpl. rewrite exec_bind. reflexivity.
Qed.

(** One tick above the threshold: the velocity is multiplied by
    [0.92 * 0.96 = 0.8832] and the next tick is requested. *)
Lemma decaying_tick (w : World) (v : R) :
  decaying w v -> 0.02 <= v * 0.8832 ->
  decaying (exec animation_frame w) (v * 0.8832).
Proof.
  intros (Hrun & Hrm & Hf & Ha & Ht & Hv & id & Hp) Hge.
  rewrite (animation_frame_one w id Hp), onRaf_exec. cbv zeta. simpl.
  rewrite Hrm. simpl. rewrite Hf, Ha, Ht, Hv, Hrun.
  replace (v * 0.92 * (1 - 0.04)) with (v * 0.8832) by lra.
  rewrite (Rltb_false (Rabs (v * 0.8832)) 0.02) by (rewrite Rabs_right; lra).
  rewrite (Rltb_true 0 (Rabs (v * 0.8832))) by (rewrite Rabs_right; lra).
  simpl. unfold decaying. simpl. rewrite Hrm, Hf, Ha, Ht, Hv, Hrun.
  replace (v * 0.92 * (1 - 0.04)) with (v * 0.8832) by lra.
  rewrite (Rltb_false (Rabs (v * 0.8832)) 0.02) by (rewrite Rabs_right; lra).
  repeat split; auto. eexists; reflexivity.
Qed.

(** The tick that takes the velocity below the threshold: it becomes 0 and
    nothing is requested. *)
Lemma decaying_last_tick (w : World) (v : R) :
  decaying w v -> 0 <= v -> v * 0.8832 < 0.02 ->
  let w' := exec animation_frame w in
  _velocity (this w') = 0 /\ _rafId (this w') = 0%nat /\ raf_pending (window w') = [].
Proof.
  intros (Hrun & Hrm & Hf & Ha & Ht & Hv & id & Hp) Hpos Hlt.
  cbv zeta. rewrite (animation_frame_one w id Hp).
  set (w0 := {| this := this w; window := _ |}).
  assert (H0 : _velocity (this (exec _onRaf w0)) = 0).
  { rewrite onRaf_velocity.
    change (respectReducedMotion (this w0) && reduced_motion (window w0))
      with (respectReducedMotion (this w) && reduced_motion (window w)).
    rewrite Hrm, decayed_velocity. cbv zeta. change (this w0) with (this w).
    rewrite Hf, Ha, Ht, Hv.
    replace (v * 0.92 * (1 - 0.04)) with (v * 0.8832) by lra.
    rewrite Rltb_true by (rewrite Rabs_right; lra). reflexivity. }
  destruct (onRaf_stops_at_zero w0 H0) as [Hid Hpend].
  repeat split; assumption.
Qed.

Lemma pow_8832_pos (n : nat) : 0 < 0.8832 ^ n.
Proof. apply pow_lt. lra. Qed.

Lemma pow_8832_decr (n : nat) : 0.8832 ^ S n <= 0.8832 ^ n.
Proof. simpl. pose proof (pow_8832_pos n). lra. Qed.

Lemma decaying_frames (w : World) (n : nat) :
  decaying w 1 -> 0.02 <= 0.8832 ^ n ->
  decaying (exec (frames n) w) (0.8832 ^ n).
Proof.
  intros Hw. induction n as [|n IH]; intros Hn.
  - simpl. rewrite exec_ret. exact Hw.
  - rewrite frames_snoc.
    replace (0.8832 ^ S n) with (0.8832 ^ n * 0.8832) by (simpl; lra).
    apply decaying_tick.
    + apply IH. pose proof (pow_8832_decr n). lra.
    + simpl in Hn. lra.
Qed.

Lemma started_at_decaying (v : R) : decaying (started_at v) v.
Proof.
  unfold decaying, started_at. repeat split.
  eexists. reflexivity.
Qed.

Lemma pow_8832_anti (n m : nat) : (n <= m)%nat -> 0.8832 ^ m <= 0.8832 ^ n.
Proof.
  induction 1 as [|m Hle IH].
  - lra.
  - pose proof (pow_8832_decr m). lra.
Qed.

Lemma pow_8832_30 : 0.0240 < 0.8832 ^ 30 < 0.0241.
Proof. split; lra. Qed.

Lemma pow_8832_31 : 0.02 <= 0.8832 ^ 31.
Proof. lra. Qed.

Lemma pow_8832_32 : 0.0187 < 0.8832 ^ 32 < 0.0188.
Proof. split; lra. Qed.

(** C4, as stated, fails: 0.8832^30 is about 0.0241, above the threshold
    0.02.  After 30 ticks from velocity 1 the velocity is 0.8832^30, not 0,
    and the next tick is requested. *)
Lemma thirty_ticks_do_not_snap :
  let w := exec (frames 30) (started_at 1) in
  _velocity (this w) = 0.8832 ^ 30 /\
  threshold (this w) < _velocity (this w) /\
  _velocity (this w) <> 0 /\
  raf_pending (window w) <> [].
Proof.
  cbv zeta.
  assert (H30 : 0.02 <= 0.8832 ^ 30) by (pose proof pow_8832_30; lra).
  destruct (decaying_frames (started_at 1) 30 (started_at_decaying 1) H30)
    as (_ & _ & _ & _ & Ht & Hv & id & Hp).
  pose proof pow_8832_30 as Hb.
  rewrite Hv, Ht, Hp. repeat split; try lra. discriminate.
Qed.

(** C4, amended.  From velocity 1 with friction 0.92, attraction 0.04 and
    threshold 0.02, each tick multiplies the velocity by 0.8832 and requests
    the next one for as long as the result is at least 0.02, which covers the
    first 31 ticks: after 30 ticks the velocity is 0.8832^30, about 0.0241.
    The 32nd tick takes it to 0.8832^32, about 0.0188 and below the
    threshold, so the velocity snaps to exactly 0, no tick is requested, and
    later display refreshes change nothing. *)
Theorem decay_from_one_snaps_at_tick_32 (w : World) :
  decaying w 1 ->
  let w32 := exec (frames 32) w in
  (forall n : nat, (n <= 31)%nat -> decaying (exec (frames n) w) (0.8832 ^ n)) /\
  0.0240 < 0.8832 ^ 30 < 0.0241 /\
  0.0187 < 0.8832 ^ 32 < 0.0188 /\
  _velocity (this w32) = 0 /\
  _rafId (this w32) = 0%nat /\
  raf_pending (window w32) = [] /\
  (forall m : nat, exec (frames m) w32 = w32).
Proof.
  intros Hw w32.
  assert (Hn : forall n : nat, (n <= 31)%nat -> decaying (exec (frames n) w) (0.8832 ^ n)).
  { intros n Hle. apply decaying_frames; [exact Hw|].
    pose proof (pow_8832_anti n 31 Hle). pose proof pow_8832_31. lra. }
  assert (H32 : _velocity (this w32) = 0 /\ _rafId (this w32) = 0%nat /\
                raf_pending (window w32) = []).
  { unfold w32. rewrite frames_snoc.
    apply (decaying_last_tick _ (0.8832 ^ 31)).
    - apply Hn. lia.
    - pose proof (pow_8832_pos 31). lra.
    - pose proof pow_8832_32 as Hb. simpl in Hb |- *. lra. }
  destruct H32 as (Hv & Hid & Hp).
  split; [exact Hn|]. split; [exact pow_8832_30|]. split; [exact pow_8832_32|].
  split; [exact Hv|]. split; [exact Hid|]. split; [exact Hp|].
  intros m. apply frames_idle. exact Hp.
Qed.

(** ** Bounds on [ln 50] *)

Lemma exp_term_decreasing (x : R) : 0 <= x <= 1 -> Un_decreasing (exp_term x).
Proof.
  intros Hx n. unfold exp_term.
  assert (Hp : 0 <= x ^ n) by (apply pow_le; lra).
  assert (Hf : 0 < INR (fact n)) by apply INR_fact_lt_0.
  assert (Hf' : 0 < INR (fact (S n))) by apply INR_fact_lt_0.
  assert (Hle : INR (fact n) <= INR (fact (S n))).
  { apply le_INR. rewrite fact_simpl. simpl. lia. }
  apply Rle_trans with (x ^ n / INR (fact (S n))).
  - apply Rmult_le_compat_r; [left; apply Rinv_0_lt_compat; exact Hf'|].
    simpl. rewrite <- (Rmult_1_l (x ^ n)) at 2.
    apply Rmult_le_compat_r; lra.
  - apply Rmult_le_compat_l; [exact Hp|].
    apply Rinv_le_contravar; assumption.
Qed.

Lemma exp_term_alt (x : R) (i : nat) :
  tg_alt (exp_term x) i = / INR (fact i) * (- x) ^ i.
Proof.
  unfold tg_alt, exp_term.
  replace (- x) with (-1 * x) by ring.
  rewrite Rpow_mult_distr. unfold Rdiv. ring.
Qed.

(** The partial sums of the alternating series enclose [exp (-x)]. *)
Lemma exp_neg_enclosure (x : R) (N : nat) :
  0 <= x <= 1 ->
  sum_f_R0 (tg_alt (exp_term x)) (S (2 * N)) <= exp (- x)
    <= sum_f_R0 (tg_alt (exp_term x)) (2 * N).
Proof.
  intros Hx. apply alternated_series_ineq.
  - apply exp_term_decreasing. exact Hx.
  - apply cv_speed_pow_fact.
  - unfold exp. destruct (exist_exp (- x)) as [l Hl]. simpl.
    unfold exp_in, infinite_sum in Hl. intros eps Heps.
    destruct (Hl eps Heps) as [n0 Hn0]. exists n0. intros n Hn.
    rewrite (sum_eq _ (fun i => / INR (fact i) * (- x) ^ i)).
    + apply Hn0. exact Hn.
    + intros i _. apply exp_term_alt.
Qed.

Lemma sum_f_R0_8 (f : nat -> R) :
  sum_f_R0 f 8 = f 0%nat + f 1%nat + f 2%nat + f 3%nat + f 4%nat + f 5%nat
                 + f 6%nat + f 7%nat + f 8%nat.
Proof. reflexivity. Qed.

Lemma sum_f_R0_9 (f : nat -> R) :
  sum_f_R0 f 9 = sum_f_R0 f 8 + f 9%nat.
Proof. reflexivity. Qed.

Lemma INR_fact_S (n : nat) : INR (fact (S n)) = INR (S n) * INR (fact n).
Proof. rewrite fact_simpl, mult_INR. reflexivity. Qed.

Lemma exp_upper_sum (x : R) : sum_f_R0 (tg_alt (exp_term x)) 8 = exp_upper x.
Proof.
  rewrite sum_f_R0_8. unfold tg_alt, exp_term, exp_upper.
  rewrite !INR_fact_S. change (fact 0) with 1%nat.
  rewrite !INR_IZR_INZ. simpl Z.of_nat. field.
Qed.

Lemma exp_lower_sum (x : R) : sum_f_R0 (tg_alt (exp_term x)) 9 = exp_lower x.
Proof.
  rewrite sum_f_R0_9, exp_upper_sum. unfold tg_alt, exp_term, exp_lower.
  rewrite !INR_fact_S. change (fact 0) with 1%nat.
  rewrite !INR_IZR_INZ. simpl Z.of_nat. field.
Qed.

Lemma exp_neg_bounds (x : R) :
  0 <= x <= 1 -> exp_lower x <= exp (- x) <= exp_upper x.
Proof.
  intros Hx. rewrite <- exp_lower_sum, <- exp_upper_sum.
  apply (exp_neg_enclosure x 4 Hx).
Qed.

Lemma exp_neg_4 (x : R) : exp (- (4 * x)) = exp (- x) ^ 4.
Proof.
  replace (- (4 * x)) with (- x + (- x + (- x + - x))) by ring.
  rewrite !exp_plus. ring.
Qed.

Lemma exp_neg_4_lower (x : R) :
  0 <= x <= 1 -> 0 <= exp_lower x -> exp_lower x ^ 4 <= exp (- (4 * x)).
Proof.
  intros Hx H0. rewrite exp_neg_4. apply pow_incr.
  split; [exact H0 | apply exp_neg_bounds; exact Hx].
Qed.

Lemma exp_neg_4_upper (x : R) :
  0 <= x <= 1 -> exp (- (4 * x)) <= exp_upper x ^ 4.
Proof.
  intros Hx. rewrite exp_neg_4. apply pow_incr.
  split; [left; apply exp_pos | apply exp_neg_bounds; exact Hx].
Qed.

(** [a < ln y] and [ln y < a] from bounds on [exp (- a)]. *)
Lemma ln_gt_of_exp_neg (a y : R) : 0 < y -> / y < exp (- a) -> a < ln y.
Proof.
  intros Hy H. apply exp_lt_inv. rewrite (exp_ln y Hy).
  rewrite exp_Ropp in H.
  rewrite <- (Rinv_inv y), <- (Rinv_inv (exp a)).
  apply Rinv_lt_contravar; [|exact H].
  apply Rmult_lt_0_compat; apply Rinv_0_lt_compat; [exact Hy | apply exp_pos].
Qed.

Lemma ln_lt_of_exp_neg (a y : R) : 0 < y -> exp (- a) < / y -> ln y < a.
Proof.
  intros Hy H. apply exp_lt_inv. rewrite (exp_ln y Hy).
  rewrite exp_Ropp in H.
  rewrite <- (Rinv_inv y), <- (Rinv_inv (exp a)).
  apply Rinv_lt_contravar; [|exact H].
  apply Rmult_lt_0_compat; apply Rinv_0_lt_compat; [apply exp_pos | exact Hy].
Qed.

Lemma ln_50_bounds : 3.91 < ln 50 < 3.9125.
Proof.
  split.
  - apply ln_gt_of_exp_neg; [lra|].
    replace 3.91 with (4 * 0.9775) by lra.
    apply Rlt_le_trans with (exp_lower 0.9775 ^ 4).
    + unfold exp_lower, exp_upper. lra.
    + apply exp_neg_4_lower; [lra|]. unfold exp_lower, exp_upper. lra.
  - apply ln_lt_of_exp_neg; [lra|].
    replace 3.9125 with (4 * 0.978125) by lra.
    apply Rle_lt_trans with (exp_upper 0.978125 ^ 4).
    + apply exp_neg_4_upper. lra.
    + unfold exp_upper. lra.
Qed.

(** ** One hybrid sample: 100 px in 50 ms *)

Lemma start_exec_idle (w : World) :
  _isRunning (this w) = false ->
  exec start w =
  let id := S (raf_counter (window w)) in
  {| this := set_rafId id (set_lastTime (now (window w))
               (set_lastScrollY (scrollY (window w)) (set_isRunning true (this w))));
     window := set_raf id (raf_pending (window w) ++ [id])
                 (set_scroll_listener true (window w)) |}.
Proof.
  intros Hrun. unfold start. rewrite !exec_bind.
  change (eval getThis w) with (this w).
  change (exec getThis w) with w.
  rewrite Hrun. unfold requestAnimationFrame. run. reflexivity.
Qed.

#[local] Arguments instantaneous : simpl never.

Lemma hybrid_100_over_50 :
  instantaneous (JStr "hybrid") 100 50 = 100 / 50 * (6 + ln 50 * 2).
Proof.
  unfold instantaneous. simpl.
  assert (Hc : Rmax 50 4 = 50) by (apply Rmax_left; lra).
  rewrite Hc.
  rewrite (Rltb_false (Rabs 100) 0.3) by (rewrite Rabs_right; lra).
  rewrite (Rltb_false 50 10) by lra.
  rewrite (Rltb_true 25 50) by lra.
  reflexivity.
Qed.

(** C9.  Built with the defaults and started at scroll position 0, a tracker
    that sees the page at 100 px 50 ms later takes the [t > 25] branch of
    hybrid mode: [adaptiveScale = 6 + 2 ln 50], between 13.82 and 13.83, the
    instantaneous estimate [(100/50) * adaptiveScale], between 27.64 and
    27.65, and after the blend from 0 the velocity is that estimate times
    0.35, between 9.67 and 9.68. *)
Theorem hybrid_sample_100px_over_50ms (b : Browser) :
  scrollY b = 0 ->
  reduced_motion b = false ->
  let w := exec (scroll_event 100 (now b + 50))
             (exec start {| this := constructor (document_body b) ∅; window := b |}) in
  let adaptiveScale := 6 + ln 50 * 2 in
  let i := instantaneous (sampleMode (this w)) (100 - 0)
             (deltaT_of (now b + 50) (now b)) in
  sampleMode (this w) = JStr "hybrid" /\
  25 < Rmax (deltaT_of (now b + 50) (now b)) 4 /\
  i = 100 / 50 * adaptiveScale /\
  13.82 < adaptiveScale < 13.83 /\
  27.64 < i < 27.65 /\
  _velocity (this w) = i * 0.35 /\
  9.67 < _velocity (this w) < 9.68.
Proof.
  intros Hy Hrm.
  assert (Hdt : deltaT_of (now b + 50) (now b) = 50)
    by (rewrite deltaT_of_nonzero; lra).
  pose proof ln_50_bounds as Hln.
  rewrite start_exec_idle by reflexivity. cbv zeta.
  rewrite scroll_event_exec by reflexivity.
  rewrite onScroll_exec. simpl. rewrite Hrm, Hy. simpl.
  rewrite andb_false_r, armed_this. simpl.
  rewrite Hdt. replace (100 - 0) with 100 by lra.
  change (prop ∅ "sampleMode") with JUndefined.
  change (prop ∅ "responsiveness") with JUndefined.
  change (prop ∅ "maxVelocity") with JUndefined. simpl.
  change (js_or JUndefined (JStr "hybrid")) with (JStr "hybrid").
  rewrite hybrid_100_over_50.
  assert (Hc : Rmax 50 4 = 50) by (apply Rmax_left; lra).
  rewrite Hc.
  rewrite clamp_inside by lra.
  repeat split; try lra.
Qed.

(** ** The theorems at concrete inputs *)

(** C1 on a started default tracker: a refresh, then a scroll to 100 px. *)
Lemma blend_keeps_velocity_within_maxVelocity_witness :
  let w' := exec (run_events ([Frame] ++ [Scroll 100 50])) (started_at 0) in
  maxVelocity (this w') = maxVelocity (this (started_at 0)) /\
  Rabs (_velocity (this w')) <= maxVelocity (this w').
Proof.
  apply (blend_keeps_velocity_within_maxVelocity (started_at 0) [Frame] 100 50).
  - change (0 < 200). lra.
  - reflexivity.
Defined.

(** C2 on a default tracker at velocity 50, and with [maxVelocity] put to 0. *)
Lemma getNormalizedVelocity_spec_witness :
  eval getNormalizedVelocity (started_at 50) = clamp (50 / 200) (-1) 1 /\
  eval getNormalizedVelocity
    {| this := set_maxVelocity 0 (this (started_at 50)); window := idle_window |} = 0.
Proof.
  split.
  - apply (proj1 (getNormalizedVelocity_spec (started_at 50))).
    change (0 < 200). lra.
  - apply (proj1 (proj2 (getNormalizedVelocity_spec
      {| this := set_maxVelocity 0 (this (started_at 50)); window := idle_window |}))).
    change (0 <= 0). lra.
Defined.

(** C3 for two samples at the same clock reading, and for a clock that went
    back by 5 ms. *)
Lemma elapsed_time_fallback_witness :
  deltaT_of 10 10 = 16.7 /\
  (instantaneous (JStr "time") 100 (deltaT_of 10 15) = 0 /\ Rmax (deltaT_of 10 15) 4 = 4).
Proof.
  split.
  - apply (proj1 (elapsed_time_fallback (JStr "hybrid") 100 10 10)). lra.
  - apply (proj1 (proj2 (proj2 (elapsed_time_fallback (JStr "time") 100 10 15)))). lra.
Defined.

(** C4 on the started default tracker at velocity 1. *)
Lemma decay_from_one_snaps_at_tick_32_witness :
  _velocity (this (exec (frames 32) (started_at 1))) = 0 /\
  raf_pending (window (exec (frames 32) (started_at 1))) = [].
Proof.
  assert (H : decaying (started_at 1) 1).
  { unfold decaying, started_at. repeat split. eexists. reflexivity. }
  destruct (decay_from_one_snaps_at_tick_32 (started_at 1) H)
    as (_ & _ & _ & Hv & _ & Hp & _).
  split; [exact Hv | exact Hp].
Defined.

(** C6 on the started default tracker at velocity 1. *)
Lemma decay_does_not_grow_velocity_witness :
  Rabs (_velocity (this (exec _onRaf (started_at 1)))) <= Rabs (_velocity (this (started_at 1))).
Proof.
  apply (decay_does_not_grow_velocity (started_at 1)).
  - change (-1 <= 0.92 <= 1). lra.
  - change (0 <= 0.04 <= 1). lra.
Defined.

(** C7 on a started tracker, and on one that was never started. *)
Lemma stop_spec_witness :
  _velocity (this (exec stop (started_at 1))) = 0 /\
  stop {| this := constructor (JObj page_body) ∅; window := idle_window |} =
    (tt, {| this := constructor (JObj page_body) ∅; window := idle_window |}).
Proof.
  split.
  - apply (proj2 (stop_spec (started_at 1))). reflexivity.
  - apply (proj1 (stop_spec {| this := constructor (JObj page_body) ∅; window := idle_window |})).
    reflexivity.
Defined.

(** C9 in the browser at rest. *)
Lemma hybrid_sample_100px_over_50ms_witness :
  9.67 < _velocity (this (exec (scroll_event 100 (now idle_window + 50))
           (exec start {| this := constructor (document_body idle_window) ∅;
                          window := idle_window |}))) < 9.68.
Proof.
  apply (hybrid_sample_100px_over_50ms idle_window); reflexivity.
Defined.

(** C10: two samples under reduced motion, then one after it has cleared. *)
Lemma reduced_motion_sample_keeps_last_sample_witness :
  let w := {| this := this (started_at 5);
              window := set_reduced_motion true (window (started_at 5)) |} in
  let w2 := exec (run_events [Scroll 10 20; Scroll 30 40]) w in
  _lastScrollY (this w2) = _lastScrollY (this w) /\
  _lastTime (this w2) = _lastTime (this w).
Proof.
  apply (reduced_motion_sample_keeps_last_sample
    {| this := this (started_at 5);
       window := set_reduced_motion true (window (started_at 5)) |}
    [(10, 20); (30, 40)] 100 90); reflexivity.
Defined.

(** * Further properties of the tracker *)

(** ** setOptions *)

Lemma internal_set_if_number (o : Options) (k : string)
    (set : R -> Tracker -> Tracker) (t : Tracker) :
  (forall x t', internal (set x t') = internal t') ->
  internal (set_if_number o k set t) = internal t.
Proof.
  intros Hset. unfold set_if_number.
  destruct (has o k); [|reflexivity].
  destruct (prop o k); auto.
Qed.

Lemma internal_if (c : bool) (a b : Tracker) (r : bool * nat * R * R * R) :
  internal a = r -> internal b = r -> internal (if c then a else b) = r.
Proof. intros Ha Hb. destruct c; assumption. Qed.

Ltac internal_steps t :=
  repeat first
    [ reflexivity
    | rewrite internal_set_if_number by reflexivity
    | match goal with
      | |- internal (if _ then _ else _) = _ => apply internal_if
      end
    | match goal with
      | |- internal (set_respectReducedMotion _ ?T) = _ => change (internal T = internal t)
      | |- internal (set_writeCSSVariables _ ?T) = _ => change (internal T = internal t)
      | |- internal (set_sampleMode _ ?T) = _ => change (internal T = internal t)
      | |- internal (set_target _ ?T) = _ => change (internal T = internal t)
      end ].

Lemma setOptions_internal (o : Options) (t : Tracker) :
  internal (setOptions o t) = internal t.
Proof. unfold setOptions. internal_steps t. Qed.

(** X1.  [setOptions] changes configuration only: whatever the options
    object holds, the running flag, the tick handle, the velocity and the
    last sample are as before. *)
Theorem setOptions_keeps_running_state (o : Options) (t : Tracker) :
  _isRunning (setOptions o t) = _isRunning t /\
  _rafId (setOptions o t) = _rafId t /\
  _velocity (setOptions o t) = _velocity t /\
  _lastScrollY (setOptions o t) = _lastScrollY t /\
  _lastTime (setOptions o t) = _lastTime t.
Proof.
  pose proof (setOptions_internal o t) as H.
  unfold internal in H. injection H as H1 H2 H3 H4 H5. auto.
Qed.


(** ** One tick at most, and none once stopped *)

Lemma start_exec_running (w : World) :
  _isRunning (this w) = true -> exec start w = w.
Proof.
  intros Hrun. unfold exec, start, bind, getThis, ret. rewrite Hrun. reflexivity.
Qed.

Lemma stop_exec_idle (w : World) :
  _isRunning (this w) = false -> exec stop w = w.
Proof.
  intros Hrun. unfold exec, stop, bind, getThis, ret. rewrite Hrun. reflexivity.
Qed.

Lemma animation_frame_idle (w : World) :
  raf_pending (window w) = [] -> exec animation_frame w = w.
Proof.
  intros Hp. pose proof (frames_idle 1 w Hp) as H.
  simpl in H. rewrite exec_bind, exec_ret in H. exact H.
Qed.

Lemma scroll_event_unheard (y time : R) (w : World) :
  scroll_listener (window w) = false ->
  exec (scroll_event y time) w =
  {| this := this w; window := set_now time (set_scrollY y (window w)) |}.
Proof.
  intros Hl. unfold scroll_event. rewrite !exec_bind.
  set (w1 := exec (updateWindow _) w).
  change (eval getWindow w1) with (window w1).
  change (exec getWindow w1) with w1.
  change (scroll_listener (window w1)) with (scroll_listener (window w)).
  rewrite Hl. reflexivity.
Qed.

Lemma Rltb_0_abs_false (v : R) : Rltb 0 (Rabs v) = false -> v = 0.
Proof.
  unfold Rltb. destruct (Rlt_dec 0 (Rabs v)) as [H|H]; [discriminate|].
  intros _. destruct (Req_dec v 0) as [E|E]; [exact E|].
  exfalso. apply H. apply Rabs_pos_lt. exact E.
Qed.

Lemma armed_consistent (w : World) :
  raf_pending (window w) =
    (if Nat.eqb (_rafId (this w)) 0 then [] else [_rafId (this w)]) ->
  scroll_listener (window w) = _isRunning (this w) ->
  _isRunning (this w) = true ->
  consistent (armed w).
Proof.
  intros Hp Hl Hrun. unfold consistent, armed.
  destruct (Nat.eqb (_rafId (this w)) 0) eqn:E; simpl.
  - rewrite Hp. repeat split; try congruence.
  - rewrite E. apply Nat.eqb_neq in E. repeat split; try congruence.
Qed.

Lemma onScroll_consistent (w : World) :
  consistent w -> _isRunning (this w) = true -> consistent (exec _onScroll w).
Proof.
  intros (Hp & Hl & _) Hrun. rewrite onScroll_exec.
  destruct (respectReducedMotion (this w) && reduced_motion (window w));
    apply armed_consistent; simpl; assumption.
Qed.

Lemma onRaf_consistent (w : World) :
  raf_pending (window w) = [] ->
  scroll_listener (window w) = _isRunning (this w) ->
  _isRunning (this w) = true ->
  consistent (exec _onRaf w).
Proof.
  intros Hp Hl Hrun. rewrite onRaf_exec. cbv zeta.
  set (t1 := if respectReducedMotion (this w) && reduced_motion (window w)
             then set_rafId 0 (this w) else decayed (set_rafId 0 (this w))).
  assert (Hrun1 : _isRunning t1 = true)
    by (unfold t1; destruct (_ && _); exact Hrun).
  assert (Hid1 : _rafId t1 = 0%nat)
    by (unfold t1; destruct (_ && _); reflexivity).
  rewrite Hrun1. simpl.
  destruct (Rltb 0 (Rabs (_velocity t1))) eqn:E; unfold consistent; simpl.
  - rewrite Hp, Hrun1. repeat split; try congruence.
  - apply Rltb_0_abs_false in E.
    rewrite Hid1, Hp, Hrun1. simpl. repeat split; try congruence.
Qed.

Lemma perform_consistent (a : Action) (w : World) :
  consistent w -> consistent (exec (perform a) w).
Proof.
  intros Hc. pose proof Hc as (Hp & Hl & Hid & Hv & Hnz).
  destruct a as [| |o|[y time| |on]]; simpl.
  - (* start *)
    destruct (_isRunning (this w)) eqn:Hrun.
    + rewrite start_exec_running by exact Hrun. exact Hc.
    + rewrite start_exec_idle by exact Hrun. cbv zeta.
      rewrite (Hid eq_refl) in Hp. simpl in Hp.
      unfold consistent. simpl. rewrite Hp.
      repeat split; try congruence.
  - (* stop *)
    destruct (_isRunning (this w)) eqn:Hrun.
    + rewrite stop_exec_running by exact Hrun. cbv zeta.
      unfold consistent. simpl.
      destruct (Nat.eqb (_rafId (this w)) 0) eqn:E; simpl.
      * rewrite Hp. repeat split; congruence.
      * rewrite Hp. simpl. rewrite Nat.eqb_refl. simpl. repeat split; congruence.
    + rewrite stop_exec_idle by exact Hrun. exact Hc.
  - (* setOptions *)
    pose proof (setOptions_internal o (this w)) as Hi.
    unfold internal in Hi. injection Hi as H1 H2 H3 H4 H5.
    unfold consistent, exec, update. simpl. rewrite H1, H2, H3.
    repeat split; assumption.
  - (* scroll *)
    destruct (scroll_listener (window w)) eqn:El.
    + rewrite scroll_event_exec by exact El.
      apply onScroll_consistent; [|simpl; congruence].
      unfold consistent. simpl. rewrite El. repeat split; assumption.
    + rewrite scroll_event_unheard by exact El.
      unfold consistent. simpl. rewrite El. repeat split; assumption.
  - (* frame *)
    destruct (Nat.eqb (_rafId (this w)) 0) eqn:E.
    + rewrite animation_frame_idle by exact Hp. exact Hc.
    + rewrite (animation_frame_one w _ Hp).
      apply onRaf_consistent; simpl; [reflexivity | assumption | ].
      destruct (_isRunning (this w)) eqn:Hrun; [reflexivity|].
      apply Nat.eqb_neq in E. exfalso. apply E. apply Hid. reflexivity.
  - (* reduced-motion setting *)
    unfold consistent, exec, updateWindow. simpl. repeat split; assumption.
Qed.

Lemma run_actions_consistent (l : list Action) (w : World) :
  consistent w -> consistent (exec (run_actions l) w).
Proof.
  revert w. induction l as [|a l IH]; intros w Hc; simpl.
  - exact Hc.
  - rewrite exec_bind. apply IH. apply perform_consistent. exact Hc.
Qed.

Lemma constructed_consistent (o : Options) (b : Browser) :
  raf_pending b = [] -> scroll_listener b = false ->
  consistent {| this := constructor (document_body b) o; window := b |}.
Proof.
  intros Hp Hl. unfold consistent. simpl. repeat split; try assumption.
  intros H. contradiction.
Qed.

(** X2.  From construction on, through any calls of [start], [stop] and
    [setOptions] and any browser events, the tracker has at most one frame
    requested, the one [_rafId] names, and none while stopped; and its scroll
    listener is registered exactly while it is running. *)
Theorem at_most_one_tick_requested (o : Options) (b : Browser) (l : list Action) :
  raf_pending b = [] ->
  scroll_listener b = false ->
  let w := exec (run_actions l)
             {| this := constructor (document_body b) o; window := b |} in
  ((raf_pending (window w) = [] /\ _rafId (this w) = 0%nat) \/
   (raf_pending (window w) = [_rafId (this w)] /\ _rafId (this w) <> 0%nat /\
    _isRunning (this w) = true)) /\
  scroll_listener (window w) = _isRunning (this w).
Proof.
  intros Hp Hl w.
  destruct (run_actions_consistent l _ (constructed_consistent o b Hp Hl))
    as (H1 & H2 & H3 & _). fold w in H1, H2, H3.
  split; [|exact H2].
  destruct (Nat.eqb (_rafId (this w)) 0) eqn:E.
  - left. apply Nat.eqb_eq in E. auto.
  - right. apply Nat.eqb_neq in E. repeat split; try assumption.
    destruct (_isRunning (this w)); [reflexivity|]. exfalso. apply E. apply H3. reflexivity.
Qed.

(** X3.  Decay is never left waiting: from construction on, whenever the
    velocity is not 0 the tracker is running and has its tick requested. *)
Theorem nonzero_velocity_has_tick_requested
    (o : Options) (b : Browser) (l : list Action) :
  raf_pending b = [] ->
  scroll_listener b = false ->
  let w := exec (run_actions l)
             {| this := constructor (document_body b) o; window := b |} in
  _velocity (this w) <> 0 ->
  _isRunning (this w) = true /\
  _rafId (this w) <> 0%nat /\
  raf_pending (window w) = [_rafId (this w)].
Proof.
  intros Hp Hl w Hv.
  destruct (run_actions_consistent l _ (constructed_consistent o b Hp Hl))
    as (H1 & _ & _ & H4 & H5). fold w in H1, H4, H5.
  pose proof (H5 Hv) as Hid.
  split; [|split].
  - destruct (_isRunning (this w)); [reflexivity|]. exfalso. apply Hv. apply H4. reflexivity.
  - exact Hid.
  - apply Nat.eqb_neq in Hid. rewrite Hid in H1. exact H1.
Qed.

Lemma run_events_unheard (es : list Event) (w : World) :
  scroll_listener (window w) = false ->
  raf_pending (window w) = [] ->
  let w' := exec (run_events es) w in
  this w' = this w /\
  style_log (window w') = style_log (window w) /\
  raf_pending (window w') = [] /\
  scroll_listener (window w') = false.
Proof.
  revert w. induction es as [|e es IH]; intros w Hl Hp; simpl.
  - rewrite exec_ret. auto.
  - rewrite exec_bind.
    assert (H : this (exec (step e) w) = this w /\
                style_log (window (exec (step e) w)) = style_log (window w) /\
                raf_pending (window (exec (step e) w)) = [] /\
                scroll_listener (window (exec (step e) w)) = false).
    { destruct e as [y time| |on]; simpl.
      - rewrite scroll_event_unheard by exact Hl. simpl. auto.
      - rewrite animation_frame_idle by exact Hp. auto.
      - unfold exec, updateWindow. simpl. auto. }
    destruct H as (A1 & A2 & A3 & A4).
    destruct (IH (exec (step e) w) A4 A3) as (B1 & B2 & B3 & B4).
    cbv zeta in *. rewrite B1, B2, A1, A2. auto.
Qed.

(** X4.  A tracker that is not running is inert: whenever, after any calls
    and events since construction, [running] is false (as after [stop()]),
    the velocity is 0, and no later scroll event, display refresh or change
    of the reduced-motion setting changes the tracker, writes a style or
    requests a frame. *)
Theorem stopped_tracker_is_inert
    (o : Options) (b : Browser) (l : list Action) (es : list Event) :
  raf_pending b = [] ->
  scroll_listener b = false ->
  let w := exec (run_actions l)
             {| this := constructor (document_body b) o; window := b |} in
  _isRunning (this w) = false ->
  let w' := exec (run_events es) w in
  _velocity (this w) = 0 /\
  this w' = this w /\
  style_log (window w') = style_log (window w) /\
  raf_pending (window w') = [].
Proof.
  intros Hp Hl w Hrun w'.
  destruct (run_actions_consistent l _ (constructed_consistent o b Hp Hl))
    as (H1 & H2 & H3 & H4 & _). fold w in H1, H2, H3, H4.
  rewrite (H3 Hrun) in H1. simpl in H1. rewrite Hrun in H2.
  destruct (run_events_unheard es w H2 H1) as (A1 & A2 & A3 & _).
  fold w' in A1, A2, A3. auto.
Qed.

(** X5.  [start()] is idempotent: a second call changes nothing, and after
    the first the tracker is running with its listener registered and a
    frame requested under the handle it holds. *)
Theorem start_is_idempotent (w : World) :
  let w1 := exec start w in
  exec start w1 = w1 /\
  _isRunning (this w1) = true /\
  (_isRunning (this w) = false ->
     scroll_listener (window w1) = true /\
     _lastScrollY (this w1) = scrollY (window w) /\
     _lastTime (this w1) = now (window w) /\
     _rafId (this w1) <> 0%nat /\
     raf_pending (window w1) = raf_pending (window w) ++ [_rafId (this w1)] /\
     _velocity (this w1) = _velocity (this w)).
Proof.
  cbv zeta. destruct (_isRunning (this w)) eqn:Hrun.
  - rewrite !start_exec_running by (rewrite ?start_exec_running; exact Hrun).
    split; [reflexivity|]. split; [exact Hrun|]. intros H; discriminate.
  - rewrite (start_exec_idle w Hrun). cbv zeta.
    split; [apply start_exec_running; reflexivity|].
    split; [reflexivity|]. intros _. simpl. repeat split. discriminate.
Qed.

(** ** Who changes the configuration *)

Lemma armed_config (w : World) : config (this (armed w)) = config (this w).
Proof. unfold armed. destruct (Nat.eqb _ 0); reflexivity. Qed.

Lemma onScroll_config (w : World) : config (this (exec _onScroll w)) = config (this w).
Proof.
  rewrite onScroll_exec.
  destruct (respectReducedMotion (this w) && reduced_motion (window w));
    rewrite armed_config; reflexivity.
Qed.

Lemma onRaf_config (w : World) : config (this (exec _onRaf w)) = config (this w).
Proof.
  rewrite onRaf_exec. cbv zeta.
  destruct (respectReducedMotion (this w) && reduced_motion (window w));
    match goal with |- context [if ?c then _ else _] => destruct c end;
    reflexivity.
Qed.

Lemma run_callbacks_config (ids : list nat) (w : World) :
  config (this (exec (run_callbacks ids _onRaf) w)) = config (this w).
Proof.
  revert w. induction ids as [|i ids IH]; intros w; simpl.
  - reflexivity.
  - rewrite exec_bind, IH. apply onRaf_config.
Qed.

Lemma step_config (e : Event) (w : World) :
  config (this (exec (step e) w)) = config (this w).
Proof.
  destruct e as [y time| |on]; simpl.
  - destruct (scroll_listener (window w)) eqn:El.
    + rewrite scroll_event_exec by exact El. rewrite onScroll_config. reflexivity.
    + rewrite scroll_event_unheard by exact El. reflexivity.
  - unfold animation_frame. rewrite !exec_bind, run_callbacks_config. reflexivity.
  - reflexivity.
Qed.

Lemma perform_config (a : Action) (w : World) :
  reconfigures a = false ->
  config (this (exec (perform a) w)) = config (this w).
Proof.
  destruct a as [| |o|e]; simpl; intros Hr.
  - destruct (_isRunning (this w)) eqn:Hrun.
    + rewrite start_exec_running by exact Hrun. reflexivity.
    + rewrite start_exec_idle by exact Hrun. reflexivity.
  - destruct (_isRunning (this w)) eqn:Hrun.
    + rewrite stop_exec_running by exact Hrun. reflexivity.
    + rewrite stop_exec_idle by exact Hrun. reflexivity.
  - discriminate.
  - apply step_config.
Qed.

Lemma run_actions_config (l : list Action) (w : World) :
  forallb (fun a => negb (reconfigures a)) l = true ->
  config (this (exec (run_actions l) w)) = config (this w).
Proof.
  revert w. induction l as [|a l IH]; intros w Hl; simpl.
  - reflexivity.
  - simpl in Hl. apply andb_prop in Hl. destruct Hl as [Ha Hl].
    rewrite exec_bind, IH by exact Hl.
    apply perform_config. destruct (reconfigures a); [discriminate | reflexivity].
Qed.

(** X6.  Only [setOptions] changes the configuration: [start], [stop],
    scroll events, display refreshes and changes of the reduced-motion
    setting, in any number and order, leave all nine configuration fields as
    they were. *)
Theorem only_setOptions_changes_config (l : list Action) (w : World) :
  forallb (fun a => negb (reconfigures a)) l = true ->
  let t' := this (exec (run_actions l) w) in
  target t' = target (this w) /\
  sampleMode t' = sampleMode (this w) /\
  responsiveness t' = responsiveness (this w) /\
  friction t' = friction (this w) /\
  attraction t' = attraction (this w) /\
  threshold t' = threshold (this w) /\
  maxVelocity t' = maxVelocity (this w) /\
  writeCSSVariables t' = writeCSSVariables (this w) /\
  respectReducedMotion t' = respectReducedMotion (this w).
Proof.
  intros Hl t'. pose proof (run_actions_config l w Hl) as Hc.
  unfold config in Hc. injection Hc as C1 C2 C3 C4 C5 C6 C7 C8 C9.
  repeat split; assumption.
Qed.

(** ** What setOptions assigns *)

Lemma proj_if {A : Type} (p : Tracker -> A) (c : bool) (a b : Tracker) :
  p (if c then a else b) = if c then p a else p b.
Proof. destruct c; reflexivity. Qed.

Lemma if_same {A : Type} (c : bool) (x : A) : (if c then x else x) = x.
Proof. destruct c; reflexivity. Qed.

Lemma proj_set_if_number_other {A : Type} (p : Tracker -> A) (o : Options) (k : string)
    (set : R -> Tracker -> Tracker) (t : Tracker) :
  (forall x t', p (set x t') = p t') ->
  p (set_if_number o k set t) = p t.
Proof.
  intros Hset. unfold set_if_number.
  destruct (has o k); [|reflexivity].
  destruct (prop o k); auto.
Qed.

Lemma proj_set_if_number_own (p : Tracker -> R) (o : Options) (k : string)
    (set : R -> Tracker -> Tracker) (t : Tracker) :
  (forall x t', p (set x t') = x) ->
  p (set_if_number o k set t) = merge_number o k (p t).
Proof.
  intros Hset. unfold set_if_number, merge_number.
  destruct (has o k); [|reflexivity].
  destruct (prop o k); simpl; auto.
Qed.

Ltac proj_simpl :=
  cbn [target sampleMode responsiveness friction attraction threshold maxVelocity
       writeCSSVariables respectReducedMotion
       _isRunning _rafId _velocity _lastScrollY _lastTime
       set_target set_sampleMode set_responsiveness set_friction set_attraction
       set_threshold set_maxVelocity set_writeCSSVariables set_respectReducedMotion].

Ltac peel p :=
  repeat first
    [ rewrite (proj_set_if_number_own p) by reflexivity
    | rewrite (proj_set_if_number_other p) by reflexivity
    | rewrite (proj_if p); proj_simpl; rewrite ?if_same ].

Lemma setOptions_numbers (o : Options) (t : Tracker) :
  responsiveness (setOptions o t) =
    merge_number o "dampening" (merge_number o "responsiveness" (responsiveness t)) /\
  friction (setOptions o t) = merge_number o "friction" (friction t) /\
  attraction (setOptions o t) = merge_number o "attraction" (attraction t) /\
  threshold (setOptions o t) = merge_number o "threshold" (threshold t) /\
  maxVelocity (setOptions o t) = merge_number o "maxVelocity" (maxVelocity t).
Proof.
  unfold setOptions. repeat split.
  - peel responsiveness. reflexivity.
  - peel friction. reflexivity.
  - peel attraction. reflexivity.
  - peel threshold. reflexivity.
  - peel maxVelocity. reflexivity.
Qed.

Lemma setOptions_others (o : Options) (t : Tracker) :
  target (setOptions o t) =
    (if has o "target" && truthy (prop o "target") then prop o "target" else target t) /\
  sampleMode (setOptions o t) =
    (if has o "sampleMode" then js_or (prop o "sampleMode") (JStr "hybrid")
     else sampleMode t) /\
  writeCSSVariables (setOptions o t) =
    (if has o "writeCSSVariables" then truthy (prop o "writeCSSVariables")
     else writeCSSVariables t) /\
  respectReducedMotion (setOptions o t) =
    (if has o "respectReducedMotion" then truthy (prop o "respectReducedMotion")
     else respectReducedMotion t).
Proof.
  unfold setOptions. repeat split.
  - peel target. reflexivity.
  - peel sampleMode. reflexivity.
  - peel writeCSSVariables. reflexivity.
  - peel respectReducedMotion. reflexivity.
Qed.

Lemma has_lookup (o : Options) (k : string) :
  has o k = match o !! k with Some _ => true | None => false end.
Proof.
  unfold has. destruct (o !! k) eqn:E.
  - apply bool_decide_eq_true_2. eexists; reflexivity.
  - apply bool_decide_eq_false_2. intros [x Hx]. discriminate.
Qed.

Lemma merge_number_lookup (o : Options) (k : string) (prev : R) :
  merge_number o k prev =
  match o !! k with
  | Some (JNum x) => x
  | _ => prev
  end.
Proof.
  unfold merge_number. rewrite has_lookup. unfold prop.
  destruct (o !! k) as [v|]; [destruct v|]; reflexivity.
Qed.

(** X7.  [setOptions] merges numbers only: each numeric field takes the
    option of its name when that is present and a number, and keeps its
    value otherwise (absent, or present with a value of another type).
    [responsiveness] is also assigned from [dampening], after
    [responsiveness], so of two numbers [dampening] wins. *)
Theorem setOptions_merges_numbers (o : Options) (t : Tracker) :
  let merged (k : string) (prev : R) :=
    match o !! k with
    | Some (JNum x) => x
    | _ => prev
    end in
  responsiveness (setOptions o t) =
    merged "dampening" (merged "responsiveness" (responsiveness t)) /\
  friction (setOptions o t) = merged "friction" (friction t) /\
  attraction (setOptions o t) = merged "attraction" (attraction t) /\
  threshold (setOptions o t) = merged "threshold" (threshold t) /\
  maxVelocity (setOptions o t) = merged "maxVelocity" (maxVelocity t).
Proof.
  cbv beta zeta. rewrite <- !merge_number_lookup. apply setOptions_numbers.
Qed.

Lemma tracker_eta (t : Tracker) :
  t = {| target := target t; sampleMode := sampleMode t;
         responsiveness := responsiveness t; friction := friction t;
         attraction := attraction t; threshold := threshold t;
         maxVelocity := maxVelocity t; writeCSSVariables := writeCSSVariables t;
         respectReducedMotion := respectReducedMotion t;
         _isRunning := _isRunning t; _rafId := _rafId t; _velocity := _velocity t;
         _lastScrollY := _lastScrollY t; _lastTime := _lastTime t |}.
Proof. destruct t; reflexivity. Qed.

Lemma merge_number_default (o : Options) (k : string) (d : R) :
  merge_number o k d = num_or (prop o k) d.
Proof.
  unfold merge_number. rewrite has_lookup. unfold prop.
  destruct (o !! k); reflexivity.
Qed.

Lemma flag_merge (o : Options) (k : string) :
  (o !! k = None \/ exists c : bool, o !! k = Some (JBool c)) ->
  (if has o k then truthy (prop o k) else true) = not_false (prop o k).
Proof.
  intros H. rewrite has_lookup. unfold prop.
  destruct H as [H|[c H]]; rewrite H; simpl; [reflexivity | destruct c; reflexivity].
Qed.

(** X8.  Constructing with an options object is constructing with none and
    then calling [setOptions] with that object, provided the object holds no
    number under [dampening] and its two flags, where present, are booleans. *)
Theorem constructor_is_setOptions_on_defaults (body : JSValue) (o : Options) :
  (forall y : R, o !! "dampening" <> Some (JNum y)) ->
  (o !! "writeCSSVariables" = None \/
   exists c : bool, o !! "writeCSSVariables" = Some (JBool c)) ->
  (o !! "respectReducedMotion" = None \/
   exists c : bool, o !! "respectReducedMotion" = Some (JBool c)) ->
  constructor body o = setOptions o (constructor body ∅).
Proof.
  intros Hd Hw Hr.
  rewrite (tracker_eta (setOptions o (constructor body ∅))).
  destruct (setOptions_numbers o (constructor body ∅)) as (N1 & N2 & N3 & N4 & N5).
  destruct (setOptions_others o (constructor body ∅)) as (O1 & O2 & O3 & O4).
  pose proof (setOptions_internal o (constructor body ∅)) as Hi.
  unfold internal in Hi. injection Hi as I1 I2 I3 I4 I5.
  rewrite N1, N2, N3, N4, N5, O1, O2, O3, O4, I1, I2, I3, I4, I5.
  rewrite !merge_number_default.
  assert (Hdamp : forall d, num_or (prop o "dampening") d = d).
  { intros d. unfold prop. destruct (o !! "dampening") as [v|] eqn:E; [|reflexivity].
    destruct v; try reflexivity. exfalso. apply (Hd r). reflexivity. }
  rewrite Hdamp.
  unfold constructor. f_equal.
  - unfold js_or. rewrite has_lookup. unfold prop.
    destruct (o !! "target") as [v|]; simpl; [|reflexivity].
    destruct (truthy v); reflexivity.
  - rewrite has_lookup. unfold prop.
    destruct (o !! "sampleMode") as [v|]; reflexivity.
  - symmetry. apply (flag_merge o "writeCSSVariables" Hw).
  - symmetry. apply (flag_merge o "respectReducedMotion" Hr).
Qed.

(** X9.  The constructor and [setOptions] read a flag differently.  For a
    flag present with a falsy value other than [false] (0, [null],
    [undefined], the empty string), the constructor turns the flag on
    ([!== false]) and [setOptions] turns it off ([!!]). *)
Theorem falsy_flag_on_in_constructor_off_in_setOptions
    (body : JSValue) (o : Options) (t : Tracker) (v : JSValue) :
  truthy v = false ->
  v <> JBool false ->
  (o !! "writeCSSVariables" = Some v ->
     writeCSSVariables (constructor body o) = true /\
     writeCSSVariables (setOptions o t) = false) /\
  (o !! "respectReducedMotion" = Some v ->
     respectReducedMotion (constructor body o) = true /\
     respectReducedMotion (setOptions o t) = false).
Proof.
  intros Hf Hv.
  assert (Hnf : not_false v = true).
  { destruct v as [| |c| | |]; try reflexivity. destruct c; [reflexivity|]. congruence. }
  destruct (setOptions_others o t) as (_ & _ & O3 & O4).
  split; intros Hk.
  - split.
    + simpl. unfold prop. rewrite Hk. exact Hnf.
    + rewrite O3, has_lookup. unfold prop. rewrite Hk. exact Hf.
  - split.
    + simpl. unfold prop. rewrite Hk. exact Hnf.
    + rewrite O4, has_lookup. unfold prop. rewrite Hk. exact Hf.
Qed.

Lemma js_or_truthy (a b : JSValue) : truthy b = true -> truthy (js_or a b) = true.
Proof. intros H. unfold js_or. destruct (truthy a) eqn:E; assumption. Qed.

Lemma js_or_truthy_l (a b : JSValue) : truthy a = true -> js_or a b = a.
Proof. intros H. unfold js_or. rewrite H. reflexivity. Qed.

Lemma styled_falsy (v : JSValue) : truthy v = false -> styled v = None.
Proof. destruct v; simpl; try reflexivity. discriminate. Qed.

Lemma perform_keeps_mode (a : Action) (w : World) :
  truthy (sampleMode (this w)) = true ->
  truthy (sampleMode (this (exec (perform a) w))) = true.
Proof.
  intros Hm. destruct (reconfigures a) eqn:Hr.
  - destruct a as [| |o|e]; try discriminate. simpl.
    destruct (setOptions_others o (this w)) as (_ & O2 & _).
    unfold exec, update. simpl. rewrite O2.
    destruct (has o "sampleMode"); [|exact Hm].
    apply js_or_truthy. reflexivity.
  - pose proof (perform_config a w Hr) as Hc. unfold config in Hc.
    injection Hc as C1 C2. rewrite C2. exact Hm.
Qed.

Lemma perform_keeps_truthy_target (a : Action) (w : World) :
  truthy (target (this w)) = true ->
  truthy (target (this (exec (perform a) w))) = true.
Proof.
  intros Ht. destruct (reconfigures a) eqn:Hr.
  - destruct a as [| |o|e]; try discriminate. simpl.
    destruct (setOptions_others o (this w)) as (O1 & _).
    unfold exec, update. simpl. rewrite O1.
    destruct (has o "target"); simpl; [|exact Ht].
    destruct (truthy (prop o "target")) eqn:E; assumption.
  - pose proof (perform_config a w Hr) as Hc. unfold config in Hc.
    injection Hc as C1 C2. rewrite C1. exact Ht.
Qed.

Lemma run_actions_keep_mode (l : list Action) (w : World) :
  truthy (sampleMode (this w)) = true ->
  truthy (sampleMode (this (exec (run_actions l) w))) = true.
Proof.
  revert w. induction l as [|a l IH]; intros w H; simpl.
  - exact H.
  - rewrite exec_bind. apply IH. apply perform_keeps_mode. exact H.
Qed.

Lemma run_actions_keep_truthy_target (l : list Action) (w : World) :
  truthy (target (this w)) = true ->
  truthy (target (this (exec (run_actions l) w))) = true.
Proof.
  revert w. induction l as [|a l IH]; intros w H; simpl.
  - exact H.
  - rewrite exec_bind. apply IH. apply perform_keeps_truthy_target. exact H.
Qed.

(** X10.  The sampling mode is never falsy: the constructor and
    [setOptions] both fall back to ["hybrid"].  The target is
    [options.target || document.body]: truthy whenever either is, and a
    truthy target stays truthy through any calls and events, [setOptions]
    keeping the target it has when offered a falsy one.  Only when
    [document.body] is null (or otherwise falsy) at construction and no
    target is given is the target falsy; until [setOptions] supplies one it
    stays so, and there is no element to write to. *)
Theorem target_and_sampleMode_stay_truthy
    (body : JSValue) (o : Options) (b : Browser) (l : list Action) :
  let t0 := constructor body o in
  let w := exec (run_actions l) {| this := t0; window := b |} in
  truthy (sampleMode (this w)) = true /\
  (truthy body = true \/ truthy (prop o "target") = true -> truthy (target t0) = true) /\
  (truthy (target t0) = true -> truthy (target (this w)) = true) /\
  (truthy body = false -> truthy (prop o "target") = false ->
   forallb (fun a => negb (reconfigures a)) l = true ->
   target (this w) = body /\ output_element (this w) = None).
Proof.
  cbv zeta. split; [|split; [|split]].
  - apply run_actions_keep_mode. simpl. apply js_or_truthy. reflexivity.
  - intros [Hb|Ht]; simpl.
    + apply js_or_truthy. exact Hb.
    + rewrite (js_or_truthy_l _ _ Ht). exact Ht.
  - intros Ht. apply run_actions_keep_truthy_target. exact Ht.
  - intros Hb Ht Hl.
    pose proof (run_actions_config l {| this := constructor body o; window := b |} Hl) as Hc.
    unfold config in Hc. injection Hc as C1 C2 C3 C4 C5 C6 C7 C8 C9.
    simpl in C1. unfold js_or in C1. rewrite Ht in C1.
    split; [exact C1|].
    unfold output_element. rewrite C1, (styled_falsy body Hb).
    destruct (writeCSSVariables _); reflexivity.
Qed.

(** ** clamp *)

(** X11.  [clamp(value, min, max)] with [min <= max] returns [value] inside
    the range and the nearer bound outside it, so its result lies in the
    range and clamping twice is clamping once.  With the bounds the wrong
    way round, [max < min], it returns [min] whatever the value. *)
Theorem clamp_cases (value min max : R) :
  (min <= max ->
     min <= clamp value min max <= max /\
     (min <= value <= max -> clamp value min max = value) /\
     (value <= min -> clamp value min max = min) /\
     (max <= value -> clamp value min max = max) /\
     clamp (clamp value min max) min max = clamp value min max) /\
  (max < min -> clamp value min max = min).
Proof.
  unfold clamp, Rmax, Rmin.
  split; intros H; repeat split; intros;
    repeat destruct (Rle_dec _ _); lra.
Qed.


Lemma clamp_nonpos_bound (x m : R) : m <= 0 -> clamp x (- m) m = - m.
Proof.
  intros H. unfold clamp, Rmax, Rmin. repeat destruct (Rle_dec _ _); lra.
Qed.

Lemma getNormalizedVelocity_nonpos (w : World) :
  maxVelocity (this w) <= 0 -> eval getNormalizedVelocity w = 0.
Proof.
  intros H. unfold getNormalizedVelocity, eval, bind, getThis.
  rewrite (Rleb_true _ _ H). reflexivity.
Qed.

Lemma Rabs_le_bounds (x a : R) : Rabs x <= a -> - a <= x <= a.
Proof. unfold Rabs. destruct (Rcase_abs x); lra. Qed.

(** X12.  A [maxVelocity] of 0 or below disables the tracker's signal
    without any error: every blend then leaves the velocity at
    [-maxVelocity], whatever was scrolled, and the normalized velocity is 0. *)
Theorem nonpositive_maxVelocity_pins_velocity (w : World) :
  maxVelocity (this w) <= 0 ->
  respectReducedMotion (this w) && reduced_motion (window w) = false ->
  let w' := exec _onScroll w in
  _velocity (this w') = - maxVelocity (this w) /\
  eval getNormalizedVelocity w' = 0.
Proof.
  intros Hm Hrm w'. split.
  - unfold w'. rewrite onScroll_velocity, Hrm. simpl.
    apply clamp_nonpos_bound. exact Hm.
  - apply getNormalizedVelocity_nonpos.
    unfold w'. rewrite (proj1 (onScroll_same_setup w)). exact Hm.
Qed.

(** ** The sampling modes *)

(** X13.  Scrolling up and scrolling down are measured alike: in every
    sampling mode, the opposite displacement over the same time gives the
    opposite estimate. *)
Theorem instantaneous_is_odd (mode : JSValue) (deltaY deltaT : R) :
  instantaneous mode (- deltaY) deltaT = - instantaneous mode deltaY deltaT.
Proof.
  unfold instantaneous. rewrite Rabs_Ropp.
  destruct (str_is mode "time").
  - destruct (Rltb 0 deltaT); unfold Rdiv; ring.
  - destruct (str_is mode "hybrid"); [|reflexivity]. cbv zeta.
    destruct (Rltb (Rabs deltaY) 0.3);
      destruct (Rltb (Rmax deltaT 4) 10);
      try destruct (Rltb 25 (Rmax deltaT 4)); unfold Rdiv; ring.
Qed.

Lemma instantaneous_zero (mode : JSValue) (deltaT : R) :
  instantaneous mode 0 deltaT = 0.
Proof.
  unfold instantaneous.
  destruct (str_is mode "time").
  - destruct (Rltb 0 deltaT); unfold Rdiv; ring.
  - destruct (str_is mode "hybrid"); [|reflexivity]. cbv zeta.
    destruct (Rltb (Rabs 0) 0.3);
      destruct (Rltb (Rmax deltaT 4) 10);
      try destruct (Rltb 25 (Rmax deltaT 4)); unfold Rdiv; ring.
Qed.

Lemma hybrid_jitter (mode : JSValue) (deltaY deltaT : R) :
  str_is mode "time" = false -> str_is mode "hybrid" = true ->
  Rabs deltaY < 0.3 ->
  instantaneous mode deltaY deltaT = 0.
Proof.
  intros Ht Hh Hj. unfold instantaneous. rewrite Ht, Hh. cbv zeta.
  rewrite (Rltb_true _ _ Hj).
  destruct (Rltb (Rmax deltaT 4) 10);
    try destruct (Rltb 25 (Rmax deltaT 4)); unfold Rdiv; ring.
Qed.

Lemma blended_fields (t : Tracker) (b : Browser) :
  _lastScrollY (blended t b) = scrollY b /\ _lastTime (blended t b) = now b.
Proof. split; reflexivity. Qed.

(** X14.  A sample without movement changes no velocity, and in hybrid mode
    neither does one that moved less than 0.3 px: with the velocity within
    [maxVelocity], the scroll handler leaves it as it was.  It still takes
    the position and the time as the new last sample, so displacement that
    arrives in steps below 0.3 px is never measured. *)
Theorem still_sample_keeps_velocity (w : World) :
  respectReducedMotion (this w) && reduced_motion (window w) = false ->
  Rabs (_velocity (this w)) <= maxVelocity (this w) ->
  (scrollY (window w) = _lastScrollY (this w) \/
   (sampleMode (this w) = JStr "hybrid" /\
    Rabs (scrollY (window w) - _lastScrollY (this w)) < 0.3)) ->
  let w' := exec _onScroll w in
  _velocity (this w') = _velocity (this w) /\
  _lastScrollY (this w') = scrollY (window w) /\
  _lastTime (this w') = now (window w).
Proof.
  intros Hrm Hv Hstill w'.
  assert (Hi : instantaneous (sampleMode (this w))
                 (scrollY (window w) - _lastScrollY (this w))
                 (deltaT_of (now (window w)) (_lastTime (this w))) = 0).
  { destruct Hstill as [Hy|[Hmode Hj]].
    - rewrite Hy. replace (_lastScrollY (this w) - _lastScrollY (this w)) with 0 by ring.
      apply instantaneous_zero.
    - apply hybrid_jitter; [rewrite Hmode; reflexivity .. | exact Hj]. }
  unfold w'. rewrite onScroll_exec, Hrm. rewrite armed_this.
  split; [|split; reflexivity].
  simpl. rewrite Hi.
  rewrite clamp_inside.
  - ring.
  - apply Rabs_le_bounds in Hv. lra.
Qed.

Lemma ln_le_pred (x : R) : 0 < x -> ln x <= x - 1.
Proof.
  intros Hx. pose proof (exp_ineq1_le (ln x)) as H.
  rewrite (exp_ln x Hx) in H. lra.
Qed.

Lemma adaptive_scale_below (c : R) : 25 < c -> 0 < 6 + ln c * 2 <= c.
Proof.
  intros Hc.
  assert (Hq : 0 < c / 50) by (apply Rdiv_lt_0_compat; lra).
  assert (Hs : ln c = ln 50 + ln (c / 50)).
  { rewrite <- ln_mult by lra. f_equal. field. }
  pose proof (ln_le_pred (c / 50) Hq) as Hl.
  pose proof ln_50_bounds as H50.
  assert (H1 : ln 1 < ln c) by (apply ln_increasing; lra).
  rewrite ln_1 in H1.
  split; lra.
Qed.

Lemma scaled_abs_le (d k : R) : 0 <= k <= 1 -> Rabs (d * k) <= Rabs d.
Proof.
  intros Hk. rewrite Rabs_mult, (Rabs_right k) by lra.
  pose proof (Rabs_pos d) as Hd.
  rewrite <- (Rmult_1_r (Rabs d)) at 2.
  apply Rmult_le_compat_l; lra.
Qed.

Lemma hybrid_factor (d c : R) :
  4 <= c ->
  exists k : R, 0 <= k <= 1 /\
    (if Rltb c 10 then d * (0.85 + 0.15 * (c / 10))
     else if Rltb 25 c then d / c * (6 + ln c * 2)
     else (25 - c) / 15 * (d * 0.7) + (1 - (25 - c) / 15) * (d / c * 8)) = d * k.
Proof.
  intros Hc. unfold Rltb.
  destruct (Rlt_dec c 10) as [H10|H10].
  - exists (0.85 + 0.15 * (c / 10)). split; [lra | reflexivity].
  - destruct (Rlt_dec 25 c) as [H25|H25].
    + exists ((6 + ln c * 2) / c). split.
      * destruct (adaptive_scale_below c H25) as [Hp Hle].
        split.
        -- apply Rmult_le_pos; [lra | left; apply Rinv_0_lt_compat; lra].
        -- apply Rmult_le_reg_r with c; [lra|].
           unfold Rdiv. rewrite Rmult_assoc, Rinv_l by lra. lra.
      * unfold Rdiv. ring.
    + exists ((25 - c) / 15 * 0.7 + (1 - (25 - c) / 15) * (8 / c)). split.
      * assert (Hq : 0.32 <= 8 / c <= 0.8).
        { split.
          - apply Rmult_le_reg_r with c; [lra|].
            unfold Rdiv. rewrite Rmult_assoc, Rinv_l by lra. lra.
          - apply Rmult_le_reg_r with c; [lra|].
            unfold Rdiv. rewrite Rmult_assoc, Rinv_l by lra. lra. }
        set (r := (25 - c) / 15).
        assert (Hr : 0 <= r <= 1) by (unfold r; lra).
        set (q := 8 / c) in *.
        assert (H1 : 0 <= (1 - r) * q) by (apply Rmult_le_pos; lra).
        assert (H2 : (1 - r) * q <= (1 - r) * 0.8)
          by (apply Rmult_le_compat_l; lra).
        lra.
      * unfold Rdiv. ring.
Qed.

Lemma instantaneous_bounded_outside_time (mode : JSValue) (deltaY deltaT : R) :
  str_is mode "time" = false ->
  Rabs (instantaneous mode deltaY deltaT) <= Rabs deltaY.
Proof.
  intros Ht. unfold instantaneous. rewrite Ht.
  destruct (str_is mode "hybrid"); [|lra]. cbv zeta.
  destruct (hybrid_factor (if Rltb (Rabs deltaY) 0.3 then 0 else deltaY)
              (Rmax deltaT 4) (capped_ge_4 deltaT)) as (k & Hk & Heq).
  rewrite Heq.
  destruct (Rltb (Rabs deltaY) 0.3).
  - rewrite Rmult_0_l, Rabs_R0. apply Rabs_pos.
  - apply scaled_abs_le. exact Hk.
Qed.

(** X15.  Outside time mode the estimate never exceeds the displacement:
    delta mode, and any mode that is neither ["time"] nor ["hybrid"], returns
    the displacement itself, and hybrid mode scales it by a factor between 0
    and 1 in each of its three timing ranges. *)
Theorem instantaneous_at_most_displacement (mode : JSValue) (deltaY deltaT : R) :
  str_is mode "time" = false ->
  Rabs (instantaneous mode deltaY deltaT) <= Rabs deltaY /\
  (str_is mode "hybrid" = false -> instantaneous mode deltaY deltaT = deltaY).
Proof.
  intros Ht. split.
  - apply instantaneous_bounded_outside_time. exact Ht.
  - intros Hh. unfold instantaneous. rewrite Ht, Hh. reflexivity.
Qed.

Lemma clamp_nonexpansive (x v m : R) :
  - m <= v <= m -> Rabs (clamp x (- m) m - v) <= Rabs (x - v).
Proof.
  intros Hv. unfold clamp, Rmax, Rmin.
  repeat destruct (Rle_dec _ _); unfold Rabs; repeat destruct (Rcase_abs _); lra.
Qed.

(** X16.  Outside time mode and reduced motion, one scroll event moves the
    velocity by at most [responsiveness * |deltaY|], for a responsiveness of
    0 or more and a velocity within [maxVelocity]. *)
Theorem scroll_event_moves_velocity_by_at_most (w : World) :
  respectReducedMotion (this w) && reduced_motion (window w) = false ->
  str_is (sampleMode (this w)) "time" = false ->
  0 <= responsiveness (this w) ->
  Rabs (_velocity (this w)) <= maxVelocity (this w) ->
  let w' := exec _onScroll w in
  Rabs (_velocity (this w') - _velocity (this w)) <=
    responsiveness (this w) * Rabs (scrollY (window w) - _lastScrollY (this w)).
Proof.
  intros Hrm Hmode Hr Hv w'. unfold w'. rewrite onScroll_velocity, Hrm.
  apply Rabs_le_bounds in Hv.
  set (dy := scrollY (window w) - _lastScrollY (this w)).
  set (i := instantaneous (sampleMode (this w)) dy
              (deltaT_of (now (window w)) (_lastTime (this w)))).
  assert (Hi : Rabs i <= Rabs dy)
    by (apply instantaneous_bounded_outside_time; exact Hmode).
  change (_velocity (blended (this w) (window w)))
    with (clamp (_velocity (this w) + (_velocity (this w) + i - _velocity (this w))
                   * responsiveness (this w))
            (- maxVelocity (this w)) (maxVelocity (this w))).
  eapply Rle_trans; [apply clamp_nonexpansive; exact Hv|].
  replace (_velocity (this w) + (_velocity (this w) + i - _velocity (this w))
             * responsiveness (this w) - _velocity (this w))
    with (responsiveness (this w) * i) by ring.
  rewrite Rabs_mult, (Rabs_right (responsiveness (this w))) by lra.
  apply Rmult_le_compat_l; assumption.
Qed.

(** ** The tick loop in general *)

Lemma onRaf_keeps_running_and_setting (w : World) :
  _isRunning (this (exec _onRaf w)) = _isRunning (this w) /\
  reduced_motion (window (exec _onRaf w)) = reduced_motion (window w).
Proof.
  rewrite onRaf_exec. cbv zeta.
  destruct (respectReducedMotion (this w) && reduced_motion (window w));
    match goal with |- context [if ?c then _ else _] => destruct c end;
    split; reflexivity.
Qed.

(** A tick that leaves a running tracker with a velocity other than 0
    requests the next one. *)
Lemma onRaf_requests (w : World) :
  _isRunning (this w) = true ->
  _velocity (this (exec _onRaf w)) <> 0 ->
  raf_pending (window (exec _onRaf w)) =
    raf_pending (window w) ++ [S (raf_counter (window w))].
Proof.
  intros Hrun. rewrite onRaf_exec. cbv zeta.
  set (t1 := if respectReducedMotion (this w) && reduced_motion (window w)
             then set_rafId 0 (this w) else decayed (set_rafId 0 (this w))).
  assert (Hrun1 : _isRunning t1 = true)
    by (unfold t1; destruct (_ && _); exact Hrun).
  rewrite Hrun1. simpl.
  destruct (Rltb 0 (Rabs (_velocity t1))) eqn:E; simpl.
  - intros _. reflexivity.
  - apply Rltb_0_abs_false in E. intros Hv. contradiction.
Qed.

(** The tracker is running, a frame is requested for it, and the browser
    is about to refresh. *)
Lemma frame_keeps (w : World) (id : nat) :
  raf_pending (window w) = [id] ->
  let w' := exec animation_frame w in
  config (this w') = config (this w) /\
  _isRunning (this w') = _isRunning (this w) /\
  reduced_motion (window w') = reduced_motion (window w).
Proof.
  intros Hp. cbv zeta. rewrite (animation_frame_one w id Hp).
  set (w0 := {| this := this w; window := _ |}).
  destruct (onRaf_keeps_running_and_setting w0) as [H1 H2].
  split; [apply (onRaf_config w0)|]. split; assumption.
Qed.

Lemma frame_velocity (w : World) (id : nat) :
  raf_pending (window w) = [id] ->
  _velocity (this (exec animation_frame w)) =
  if respectReducedMotion (this w) && reduced_motion (window w)
  then _velocity (this w)
  else _velocity (decayed (this w)).
Proof.
  intros Hp. rewrite (animation_frame_one w id Hp), onRaf_velocity. reflexivity.
Qed.

Lemma frame_rests (w : World) (id : nat) :
  raf_pending (window w) = [id] ->
  _velocity (this (exec animation_frame w)) = 0 ->
  raf_pending (window (exec animation_frame w)) = [].
Proof.
  intros Hp. rewrite (animation_frame_one w id Hp). intros Hv.
  apply onRaf_stops_at_zero in Hv. destruct Hv as [_ Hv]. exact Hv.
Qed.

Lemma frame_requests (w : World) (id : nat) :
  raf_pending (window w) = [id] ->
  _isRunning (this w) = true ->
  _velocity (this (exec animation_frame w)) <> 0 ->
  exists id', raf_pending (window (exec animation_frame w)) = [id'].
Proof.
  intros Hp Hrun. rewrite (animation_frame_one w id Hp). intros Hv.
  eexists. rewrite onRaf_requests by assumption. reflexivity.
Qed.

Lemma frames_cons (n : nat) (w : World) :
  exec (frames (S n)) w = exec (frames n) (exec animation_frame w).
Proof. simpl. rewrite exec_bind. reflexivity. Qed.

(** If [N] more decays would take the velocity below the threshold, the loop
    comes to rest within [N + 1] ticks. *)
Lemma tick_loop_rests_within (N : nat) (w : World) (id : nat) :
  raf_pending (window w) = [id] ->
  _isRunning (this w) = true ->
  respectReducedMotion (this w) && reduced_motion (window w) = false ->
  0 < threshold (this w) ->
  Rabs (friction (this w) * (1 - attraction (this w))) <= 1 ->
  Rabs (_velocity (this w) * (friction (this w) * (1 - attraction (this w))) ^ N)
    < threshold (this w) ->
  exists n : nat,
    _velocity (this (exec (frames n) w)) = 0 /\
    raf_pending (window (exec (frames n) w)) = [].
Proof.
  revert w id. induction N as [|N IH]; intros w id Hp Hrun Hrm Hth Hk HN.
  - exists 1%nat. rewrite frames_cons. simpl. rewrite exec_ret.
    assert (Hv : _velocity (this (exec animation_frame w)) = 0).
    { rewrite (frame_velocity w id Hp), Hrm, decayed_velocity. cbv zeta.
      rewrite Rltb_true; [reflexivity|].
      simpl in HN. rewrite Rmult_1_r in HN.
      rewrite Rmult_assoc, Rabs_mult.
      pose proof (Rabs_pos (_velocity (this w))) as Hv0.
      apply Rle_lt_trans with (Rabs (_velocity (this w)) * 1); [|lra].
      apply Rmult_le_compat_l; assumption. }
    split; [exact Hv | apply (frame_rests w id Hp Hv)].
  - set (v1 := _velocity (this w) * friction (this w) * (1 - attraction (this w))).
    destruct (frame_keeps w id Hp) as (Hc & Hr' & Hm').
    unfold config in Hc. injection Hc as C1 C2 C3 C4 C5 C6 C7 C8 C9.
    assert (Hvel : _velocity (this (exec animation_frame w)) =
                   if Rltb (Rabs v1) (threshold (this w)) then 0 else v1).
    { rewrite (frame_velocity w id Hp), Hrm, decayed_velocity. reflexivity. }
    destruct (Rltb (Rabs v1) (threshold (this w))) eqn:Et.
    + exists 1%nat. rewrite frames_cons. simpl. rewrite exec_ret.
      split; [exact Hvel | apply (frame_rests w id Hp Hvel)].
    + assert (Hge : threshold (this w) <= Rabs v1).
      { unfold Rltb in Et. destruct (Rlt_dec (Rabs v1) (threshold (this w)));
          [discriminate | lra]. }
      assert (Hnz : _velocity (this (exec animation_frame w)) <> 0).
      { rewrite Hvel. intros H0. rewrite H0, Rabs_R0 in Hge. lra. }
      destruct (frame_requests w id Hp Hrun Hnz) as [id' Hp'].
      destruct (IH (exec animation_frame w) id' Hp') as [n [Hn1 Hn2]].
      * rewrite Hr'. exact Hrun.
      * rewrite C9, Hm'. exact Hrm.
      * rewrite C6. exact Hth.
      * rewrite C4, C5. exact Hk.
      * rewrite C4, C5, C6, Hvel. unfold v1.
        replace (_velocity (this w) * friction (this w) * (1 - attraction (this w)) *
                 (friction (this w) * (1 - attraction (this w))) ^ N)
          with (_velocity (this w) *
                (friction (this w) * (1 - attraction (this w))) ^ S N)
          by (simpl; ring).
        exact HN.
      * exists (S n). rewrite frames_cons. split; assumption.
Qed.

(** X17.  The tick loop stops by itself.  For a running tracker with its
    tick requested and reduced motion not in the way, a threshold above 0 and
    [|friction * (1 - attraction)| < 1], some number of display refreshes
    brings the velocity to exactly 0 with no frame requested, and from then
    on refreshes change nothing. *)
Theorem tick_loop_comes_to_rest (w : World) (id : nat) :
  raf_pending (window w) = [id] ->
  _isRunning (this w) = true ->
  respectReducedMotion (this w) && reduced_motion (window w) = false ->
  0 < threshold (this w) ->
  Rabs (friction (this w) * (1 - attraction (this w))) < 1 ->
  exists n : nat,
    let w' := exec (frames n) w in
    _velocity (this w') = 0 /\
    raf_pending (window w') = [] /\
    (forall m : nat, exec (frames m) w' = w').
Proof.
  intros Hp Hrun Hrm Hth Hk.
  set (k := friction (this w) * (1 - attraction (this w))) in *.
  assert (Hy : 0 < threshold (this w) / (Rabs (_velocity (this w)) + 1)).
  { apply Rdiv_lt_0_compat; [exact Hth|]. pose proof (Rabs_pos (_velocity (this w))). lra. }
  destruct (pow_lt_1_zero k Hk _ Hy) as [N HN].
  specialize (HN N (Nat.le_refl N)).
  assert (Hsmall : Rabs (_velocity (this w) * k ^ N) < threshold (this w)).
  { rewrite Rabs_mult.
    pose proof (Rabs_pos (_velocity (this w))) as Hv0.
    pose proof (Rabs_pos (k ^ N)) as Hk0.
    apply Rle_lt_trans with ((Rabs (_velocity (this w)) + 1) * Rabs (k ^ N)).
    - apply Rmult_le_compat_r; lra.
    - apply Rmult_lt_reg_r with (/ (Rabs (_velocity (this w)) + 1)).
      + apply Rinv_0_lt_compat. lra.
      + replace ((Rabs (_velocity (this w)) + 1) * Rabs (k ^ N) *
                 / (Rabs (_velocity (this w)) + 1)) with (Rabs (k ^ N))
          by (field; lra).
        exact HN. }
  destruct (tick_loop_rests_within N w id Hp Hrun Hrm Hth (Rlt_le _ _ Hk) Hsmall)
    as [n [Hv Hpn]].
  exists n. cbv zeta. split; [exact Hv|]. split; [exact Hpn|].
  intros m. apply frames_idle. exact Hpn.
Qed.

(** X18.  With reduced motion active and respected, ticks do not decay: a
    running tracker whose velocity is not 0 keeps that velocity through any
    number of display refreshes and requests a frame after each, until a
    scroll event or [stop()] sets the velocity to 0. *)
Theorem reduced_motion_ticks_do_not_decay (n : nat) (w : World) (id : nat) :
  raf_pending (window w) = [id] ->
  _isRunning (this w) = true ->
  respectReducedMotion (this w) && reduced_motion (window w) = true ->
  _velocity (this w) <> 0 ->
  let w' := exec (frames n) w in
  _velocity (this w') = _velocity (this w) /\
  exists id', raf_pending (window w') = [id'].
Proof.
  revert w id. induction n as [|n IH]; intros w id Hp Hrun Hrm Hv; cbv zeta.
  - simpl. rewrite exec_ret. split; [reflexivity | exists id; exact Hp].
  - rewrite frames_cons.
    destruct (frame_keeps w id Hp) as (Hc & Hr' & Hm').
    unfold config in Hc. injection Hc as C1 C2 C3 C4 C5 C6 C7 C8 C9.
    assert (Hvel : _velocity (this (exec animation_frame w)) = _velocity (this w))
      by (rewrite (frame_velocity w id Hp), Hrm; reflexivity).
    assert (Hnz : _velocity (this (exec animation_frame w)) <> 0)
      by (rewrite Hvel; exact Hv).
    destruct (frame_requests w id Hp Hrun Hnz) as [id' Hp'].
    destruct (IH (exec animation_frame w) id' Hp') as [A1 A2].
    + rewrite Hr'. exact Hrun.
    + rewrite C9, Hm'. exact Hrm.
    + exact Hnz.
    + cbv zeta in A1. rewrite A1, Hvel. split; [reflexivity | exact A2].
Qed.

(** ** The velocity bound as an invariant *)

Lemma onRaf_shrinks (w : World) :
  -1 <= friction (this w) <= 1 ->
  0 <= attraction (this w) <= 1 ->
  Rabs (_velocity (this (exec _onRaf w))) <= Rabs (_velocity (this w)).
Proof.
  intros Hf Ha. rewrite onRaf_velocity.
  destruct (respectReducedMotion (this w) && reduced_motion (window w)); [lra|].
  rewrite decayed_velocity. cbv zeta.
  destruct (Rltb _ _); [rewrite Rabs_R0; apply Rabs_pos | apply shrink_abs; assumption].
Qed.

Lemma run_callbacks_shrink (ids : list nat) (w : World) :
  -1 <= friction (this w) <= 1 ->
  0 <= attraction (this w) <= 1 ->
  Rabs (_velocity (this (exec (run_callbacks ids _onRaf) w))) <= Rabs (_velocity (this w)).
Proof.
  revert w. induction ids as [|i ids IH]; intros w Hf Ha; simpl.
  - rewrite exec_ret. lra.
  - rewrite exec_bind.
    pose proof (onRaf_config w) as Hc. unfold config in Hc.
    injection Hc as C1 C2 C3 C4 C5 C6 C7 C8 C9.
    eapply Rle_trans; [apply IH; rewrite ?C4, ?C5; assumption|].
    apply onRaf_shrinks; assumption.
Qed.

Lemma perform_velocity_bound (a : Action) (w : World) :
  reconfigures a = false ->
  -1 <= friction (this w) <= 1 ->
  0 <= attraction (this w) <= 1 ->
  0 <= maxVelocity (this w) ->
  Rabs (_velocity (this w)) <= maxVelocity (this w) ->
  Rabs (_velocity (this (exec (perform a) w))) <= maxVelocity (this w).
Proof.
  intros Hr Hf Ha Hm Hv.
  destruct a as [| |o|[y time| |on]]; simpl; try discriminate.
  - destruct (_isRunning (this w)) eqn:Hrun.
    + rewrite start_exec_running by exact Hrun. exact Hv.
    + rewrite start_exec_idle by exact Hrun. exact Hv.
  - destruct (_isRunning (this w)) eqn:Hrun.
    + rewrite stop_exec_running by exact Hrun. simpl. rewrite Rabs_R0. exact Hm.
    + rewrite stop_exec_idle by exact Hrun. exact Hv.
  - destruct (scroll_listener (window w)) eqn:El.
    + rewrite scroll_event_exec by exact El.
      set (w1 := {| this := this w; window := _ |}).
      eapply Rle_trans; [apply onScroll_velocity_bound; exact Hm|].
      rewrite (proj1 (onScroll_same_setup w1)). apply Rle_refl.
    + rewrite scroll_event_unheard by exact El. exact Hv.
  - unfold animation_frame. rewrite !exec_bind.
    eapply Rle_trans; [apply run_callbacks_shrink; assumption|]. exact Hv.
  - exact Hv.
Qed.

Lemma run_actions_velocity_bound (l : list Action) (w : World) :
  forallb (fun a => negb (reconfigures a)) l = true ->
  -1 <= friction (this w) <= 1 ->
  0 <= attraction (this w) <= 1 ->
  0 <= maxVelocity (this w) ->
  Rabs (_velocity (this w)) <= maxVelocity (this w) ->
  Rabs (_velocity (this (exec (run_actions l) w))) <= maxVelocity (this w).
Proof.
  revert w. induction l as [|a l IH]; intros w Hl Hf Ha Hm Hv; simpl.
  - rewrite exec_ret. exact Hv.
  - simpl in Hl. apply andb_prop in Hl. destruct Hl as [Hna Hl].
    assert (Hr : reconfigures a = false) by (destruct (reconfigures a); [discriminate | reflexivity]).
    rewrite exec_bind.
    pose proof (perform_config a w Hr) as Hc. unfold config in Hc.
    injection Hc as C1 C2 C3 C4 C5 C6 C7 C8 C9.
    rewrite <- C7. apply IH; rewrite ?C4, ?C5, ?C7; try assumption.
    apply perform_velocity_bound; assumption.
Qed.

(** X19.  With [-1 <= friction <= 1], attraction in [[0,1]] and
    [maxVelocity >= 0] given at construction and no [setOptions] since, the
    velocity stays within [maxVelocity] at every point of the tracker's
    life, not only after a blend; for a positive [maxVelocity] the normalized
    velocity is then exactly [velocity / maxVelocity], the clamp to [[-1,1]]
    never cutting anything off. *)
Theorem velocity_always_within_maxVelocity
    (body : JSValue) (o : Options) (b : Browser) (l : list Action) :
  let t0 := constructor body o in
  let w := exec (run_actions l) {| this := t0; window := b |} in
  forallb (fun a => negb (reconfigures a)) l = true ->
  -1 <= friction t0 <= 1 ->
  0 <= attraction t0 <= 1 ->
  0 <= maxVelocity t0 ->
  maxVelocity (this w) = maxVelocity t0 /\
  Rabs (_velocity (this w)) <= maxVelocity t0 /\
  (0 < maxVelocity t0 ->
   eval getNormalizedVelocity w = _velocity (this w) / maxVelocity t0).
Proof.
  intros t0 w Hl Hf Ha Hm.
  assert (Hc : config (this w) = config t0)
    by (apply (run_actions_config l {| this := t0; window := b |} Hl)).
  unfold config in Hc. injection Hc as C1 C2 C3 C4 C5 C6 C7 C8 C9.
  assert (Hv : Rabs (_velocity (this w)) <= maxVelocity t0).
  { apply (run_actions_velocity_bound l {| this := t0; window := b |}); try assumption.
    simpl. rewrite Rabs_R0. exact Hm. }
  split; [exact C7|]. split; [exact Hv|].
  intros Hpos. unfold getNormalizedVelocity, eval, bind, getThis, ret. simpl.
  rewrite C7, Rleb_false by exact Hpos. simpl.
  apply clamp_inside. apply Rabs_le_bounds in Hv.
  split.
  - apply Rmult_le_reg_r with (maxVelocity t0); [exact Hpos|].
    unfold Rdiv. rewrite Rmult_assoc, Rinv_l by lra. lra.
  - apply Rmult_le_reg_r with (maxVelocity t0); [exact Hpos|].
    unfold Rdiv. rewrite Rmult_assoc, Rinv_l by lra. lra.
Qed.

(** ** What is written to the style *)

Lemma Math_pow_nonneg (x y : R) : 0 <= Math_pow x y.
Proof.
  unfold Math_pow. destruct (Rle_dec x 0); [lra|].
  left. unfold Rpower. apply exp_pos.
Qed.

Lemma pow_of_range (n : R) : 0 <= pow_of n <= 1.
Proof.
  unfold pow_of. pose proof (Math_pow_nonneg (Rabs n) 0.7) as H.
  split.
  - apply Rmin_glb; [lra|]. apply Rmult_le_pos; lra.
  - apply Rmin_l.
Qed.

Lemma Math_pow_monotone (x x' y : R) :
  0 <= y -> 0 <= x <= x' -> Math_pow x y <= Math_pow x' y.
Proof.
  intros Hy Hx. unfold Math_pow.
  destruct (Rle_dec x 0) as [H0|H0]; destruct (Rle_dec x' 0) as [H0'|H0'].
  - lra.
  - left. unfold Rpower. apply exp_pos.
  - lra.
  - apply Rle_Rpower_l; lra.
Qed.

Lemma Math_pow_one (y : R) : Math_pow 1 y = 1.
Proof.
  unfold Math_pow. destruct (Rle_dec 1 0); [lra|].
  unfold Rpower. rewrite ln_1, Rmult_0_r. apply exp_0.
Qed.

(** X20.  The boosted value [pow = min(1, |normalized|^0.7 * 1.35)] that
    [_writeCSS] writes lies in [[0,1]], is 0 for a normalized velocity of 0
    and 1 at full velocity, does not depend on the direction, and grows with
    the magnitude of the normalized velocity. *)
Theorem pow_value_shape (n n' : R) :
  0 <= pow_of n <= 1 /\
  pow_of 0 = 0 /\
  pow_of 1 = 1 /\
  pow_of (- n) = pow_of n /\
  (Rabs n <= Rabs n' -> pow_of n <= pow_of n').
Proof.
  split; [apply pow_of_range|]. split; [|split; [|split]].
  - unfold pow_of. rewrite Rabs_R0, Math_pow_zero, Rmult_0_l. apply Rmin_right. lra.
  - unfold pow_of. rewrite Rabs_R1, Math_pow_one. apply Rmin_left. lra.
  - unfold pow_of. rewrite Rabs_Ropp. reflexivity.
  - intros Hle. unfold pow_of.
    assert (H : Math_pow (Rabs n) 0.7 <= Math_pow (Rabs n') 0.7).
    { apply Math_pow_monotone; [lra|]. split; [apply Rabs_pos | exact Hle]. }
    apply Rmin_glb; [apply Rmin_l|].
    eapply Rle_trans; [apply Rmin_r|]. lra.
Qed.

(** X21.  [_writeCSS(normalized)] never changes the tracker.  It writes
    nothing when [writeCSSVariables] is off or the target is not an element
    with a [style]; otherwise it sets exactly four properties on the target,
    in this order: the normalized velocity, its absolute value, the boosted
    value, and the raw velocity. *)
Theorem writeCSS_effect (normalized : R) (w : World) :
  let w' := exec (_writeCSS normalized) w in
  this w' = this w /\
  raf_pending (window w') = raf_pending (window w) /\
  style_log (window w') = style_log (window w) ++
    match output_element (this w) with
    | Some e =>
        [ (elem_id e, "--scroll-velocity"%string, normalized);
          (elem_id e, "--scroll-velocity-abs"%string, Rabs normalized);
          (elem_id e, "--scroll-velocity-pow"%string, pow_of normalized);
          (elem_id e, "--scroll-velocity-raw"%string, _velocity (this w)) ]
    | None => []
    end /\
  (forall e : Element,
     output_element (this w) = Some e <->
     writeCSSVariables (this w) = true /\ target (this w) = JObj e /\
     elem_has_style e = true).
Proof.
  cbv zeta. rewrite writeCSS_exec. simpl.
  split; [reflexivity|]. split; [reflexivity|]. split.
  - unfold css_writes, output_element, pow_of.
    destruct (writeCSSVariables (this w)); [|reflexivity].
    destruct (styled (target (this w))); reflexivity.
  - intros e. unfold output_element, styled.
    destruct (writeCSSVariables (this w)).
    + destruct (target (this w)) as [| |c|r|s|e'];
        try (split; [discriminate | intros (_ & H & _); discriminate]).
      destruct (elem_has_style e') eqn:Es.
      * split.
        -- intros H. injection H as <-. auto.
        -- intros (_ & H & _). injection H as <-. reflexivity.
      * split; [discriminate|]. intros (_ & H & Hs). injection H as <-. congruence.
    + split; [discriminate | intros (H & _); discriminate].
Qed.

Lemma normalized_range (w : World) : -1 <= eval getNormalizedVelocity w <= 1.
Proof.
  unfold getNormalizedVelocity, eval, bind, getThis, ret. simpl.
  destruct (Rleb (maxVelocity (this w)) 0); simpl; [lra|].
  apply clamp_range. lra.
Qed.

Lemma css_writes_in_range (t : Tracker) (n : R) :
  -1 <= n <= 1 -> Forall in_range (css_writes t n).
Proof.
  intros Hn. unfold css_writes.
  destruct (writeCSSVariables t); [|apply List.Forall_nil].
  destruct (styled (target t)) as [e|]; [|apply List.Forall_nil].
  assert (Ha : 0 <= Rabs n <= 1) by (split; [apply Rabs_pos | apply Rabs_le; lra]).
  pose proof (pow_of_range n) as Hp. unfold pow_of in Hp.
  repeat (apply List.Forall_cons;
    [unfold in_range; (split; [|split]); intros H; try discriminate H; assumption|]).
  apply List.Forall_nil.
Qed.

Lemma css_writes_off (t : Tracker) (n : R) :
  writeCSSVariables t = false -> css_writes t n = [].
Proof. intros H. unfold css_writes. rewrite H. reflexivity. Qed.

Lemma adds_nothing (w w' : World) :
  style_log (window w') = style_log (window w) -> adds w w' [].
Proof.
  intros H. unfold adds. rewrite app_nil_r. split; [exact H|].
  split; [apply List.Forall_nil | reflexivity].
Qed.

Lemma adds_trans (w1 w2 w3 : World) (e1 e2 : list StyleWrite) :
  writeCSSVariables (this w2) = writeCSSVariables (this w1) ->
  adds w1 w2 e1 -> adds w2 w3 e2 -> adds w1 w3 (e1 ++ e2).
Proof.
  intros Hf (A1 & A2 & A3) (B1 & B2 & B3). unfold adds.
  split; [rewrite B1, A1, app_assoc; reflexivity|].
  split; [apply Forall_app; split; assumption|].
  intros H. rewrite (A3 H), B3 by (rewrite Hf; exact H). reflexivity.
Qed.

Lemma onScroll_adds (w : World) : exists extra, adds w (exec _onScroll w) extra.
Proof.
  rewrite onScroll_exec.
  destruct (respectReducedMotion (this w) && reduced_motion (window w)).
  - exists (css_writes (set_velocity 0 (this w)) 0). unfold adds, armed. simpl.
    split; [destruct (Nat.eqb _ 0); reflexivity|].
    split; [apply css_writes_in_range; lra|].
    intros H. apply css_writes_off. exact H.
  - exists []. apply adds_nothing. unfold armed. simpl.
    destruct (Nat.eqb _ 0); reflexivity.
Qed.

Lemma onRaf_adds (w : World) : exists extra, adds w (exec _onRaf w) extra.
Proof.
  rewrite onRaf_exec. cbv zeta.
  set (t1 := if respectReducedMotion (this w) && reduced_motion (window w)
             then set_rafId 0 (this w) else decayed (set_rafId 0 (this w))).
  set (n := eval getNormalizedVelocity {| this := t1; window := window w |}).
  assert (Hf : writeCSSVariables t1 = writeCSSVariables (this w))
    by (unfold t1; destruct (_ && _); reflexivity).
  exists (css_writes t1 n). unfold adds.
  split; [destruct (_isRunning t1 && Rltb 0 (Rabs (_velocity t1))); reflexivity|].
  split; [apply css_writes_in_range; apply normalized_range|].
  intros H. apply css_writes_off. rewrite Hf. exact H.
Qed.

Lemma flag_of_config (t t' : Tracker) :
  config t' = config t -> writeCSSVariables t' = writeCSSVariables t.
Proof. unfold config. intros H. injection H as C1 C2 C3 C4 C5 C6 C7 C8 C9. exact C8. Qed.

Lemma run_callbacks_adds (ids : list nat) (w : World) :
  exists extra, adds w (exec (run_callbacks ids _onRaf) w) extra.
Proof.
  revert w. induction ids as [|i ids IH]; intros w; simpl.
  - exists []. apply adds_nothing. reflexivity.
  - rewrite exec_bind.
    destruct (onRaf_adds w) as [e1 H1].
    destruct (IH (exec _onRaf w)) as [e2 H2].
    exists (e1 ++ e2). eapply adds_trans; [|exact H1|exact H2].
    apply flag_of_config, onRaf_config.
Qed.

Lemma perform_adds (a : Action) (w : World) :
  exists extra, adds w (exec (perform a) w) extra.
Proof.
  destruct a as [| |o|[y time| |on]]; simpl.
  - exists []. apply adds_nothing.
    destruct (_isRunning (this w)) eqn:Hrun.
    + rewrite start_exec_running by exact Hrun. reflexivity.
    + rewrite start_exec_idle by exact Hrun. reflexivity.
  - destruct (_isRunning (this w)) eqn:Hrun.
    + rewrite stop_exec_running by exact Hrun. cbv zeta.
      eexists. unfold adds. simpl.
      split; [destruct (Nat.eqb _ 0); reflexivity|].
      split; [apply css_writes_in_range; lra|].
      intros H. apply css_writes_off. exact H.
    + exists []. apply adds_nothing. rewrite stop_exec_idle by exact Hrun. reflexivity.
  - exists []. apply adds_nothing. reflexivity.
  - destruct (scroll_listener (window w)) eqn:El.
    + rewrite scroll_event_exec by exact El.
      destruct (onScroll_adds {| this := this w;
                  window := set_now time (set_scrollY y (window w)) |}) as [e He].
      exists e. exact He.
    + exists []. apply adds_nothing. rewrite scroll_event_unheard by exact El. reflexivity.
  - unfold animation_frame. rewrite !exec_bind.
    change (eval getWindow w) with (window w).
    change (exec getWindow w) with w.
    destruct (run_callbacks_adds (raf_pending (window w))
                (exec (updateWindow (set_raf (raf_counter (window w)) [])) w)) as [e He].
    exists e. exact He.
  - exists []. apply adds_nothing. reflexivity.
Qed.

(** X22.  Whatever is called and whatever the browser does, every style
    write is within the range of its property: the normalized velocity in
    [[-1,1]], its absolute value and the boosted value in [[0,1]].  The writes
    already made are never altered, only added to. *)
Theorem style_writes_stay_in_range (l : list Action) (w : World) :
  exists extra : list StyleWrite,
    style_log (window (exec (run_actions l) w)) = style_log (window w) ++ extra /\
    Forall in_range extra.
Proof.
  revert w. induction l as [|a l IH]; intros w; simpl.
  - exists []. rewrite exec_ret, app_nil_r. split; [reflexivity | apply List.Forall_nil].
  - rewrite exec_bind.
    destruct (perform_adds a w) as (e1 & A1 & A2 & _).
    destruct (IH (exec (perform a) w)) as (e2 & B1 & B2).
    exists (e1 ++ e2). split.
    + rewrite B1, A1, app_assoc. reflexivity.
    + apply Forall_app. split; assumption.
Qed.

(** X23.  With [writeCSSVariables] off nothing is ever written: through any
    calls of [start] and [stop] and any browser events, the style writes are
    as they were. *)
Theorem no_style_write_when_disabled (l : list Action) (w : World) :
  forallb (fun a => negb (reconfigures a)) l = true ->
  writeCSSVariables (this w) = false ->
  style_log (window (exec (run_actions l) w)) = style_log (window w).
Proof.
  revert w. induction l as [|a l IH]; intros w Hl Hoff; simpl.
  - reflexivity.
  - simpl in Hl. apply andb_prop in Hl. destruct Hl as [Hna Hl].
    assert (Hr : reconfigures a = false)
      by (destruct (reconfigures a); [discriminate | reflexivity]).
    rewrite exec_bind.
    destruct (perform_adds a w) as (e1 & A1 & _ & A3).
    rewrite IH.
    + rewrite A1, (A3 Hoff), app_nil_r. reflexivity.
    + exact Hl.
    + rewrite (flag_of_config _ _ (perform_config a w Hr)). exact Hoff.
Qed.

Lemma has_absent (o : Options) (k : string) : o !! k = None -> has o k = false.
Proof. intros H. rewrite has_lookup, H. reflexivity. Qed.

(** X24.  [setOptions] ignores what it does not know: with an options object
    that holds none of the ten option names, the empty object included, the
    tracker is left exactly as it was. *)
Theorem setOptions_ignores_unknown_keys (o : Options) (t : Tracker) :
  Forall (fun k => o !! k = None) known_options ->
  setOptions o t = t.
Proof.
  intros H. unfold known_options in H.
  repeat match goal with
  | H : Forall _ (_ :: _) |- _ =>
      let H1 := fresh "K" in
      apply Forall_cons in H; destruct H as [H1 H]; apply has_absent in H1
  end.
  destruct (setOptions_numbers o t) as (N1 & N2 & N3 & N4 & N5).
  destruct (setOptions_others o t) as (O1 & O2 & O3 & O4).
  pose proof (setOptions_internal o t) as Hi.
  unfold internal in Hi. injection Hi as I1 I2 I3 I4 I5.
  unfold merge_number in N1, N2, N3, N4, N5.
  rewrite K2, K1 in N1. rewrite K3 in N2. rewrite K4 in N3. rewrite K5 in N4.
  rewrite K6 in N5. rewrite K in O1. rewrite K0 in O2. rewrite K7 in O3.
  rewrite K8 in O4. simpl in O1.
  rewrite (tracker_eta (setOptions o t)).
  rewrite N1, N2, N3, N4, N5, O1, O2, O3, O4, I1, I2, I3, I4, I5.
  symmetry. apply tracker_eta.
Qed.

Lemma setOptions_ignores_unknown_keys_witness :
  setOptions {[ "colour"%string := JStr "red" ]} (constructor (JObj page_body) ∅) =
  constructor (JObj page_body) ∅.
Proof.
  apply (setOptions_ignores_unknown_keys {[ "colour"%string := JStr "red" ]}).
  unfold known_options.
  repeat (apply List.Forall_cons; [apply lookup_singleton_ne; discriminate|]).
  apply List.Forall_nil.
Defined.

(** ** The further theorems at concrete inputs *)

Lemma at_most_one_tick_requested_witness :
  let w := exec (run_actions [CallStart; FromBrowser (Scroll 100 50); CallStop; CallStart])
             {| this := constructor (document_body idle_window) ∅; window := idle_window |} in
  scroll_listener (window w) = _isRunning (this w).
Proof.
  apply (at_most_one_tick_requested ∅ idle_window
           [CallStart; FromBrowser (Scroll 100 50); CallStop; CallStart]);
    reflexivity.
Defined.

Lemma delta_scroll_velocity :
  _velocity (this (exec (run_actions [CallStart; FromBrowser (Scroll 100 50)])
     {| this := constructor (document_body idle_window)
                  {[ "sampleMode"%string := JStr "delta" ]};
        window := idle_window |})) = 35.
Proof.
  simpl. rewrite !exec_bind, exec_ret.
  rewrite start_exec_idle by reflexivity. cbv zeta.
  rewrite scroll_event_exec by reflexivity.
  rewrite onScroll_velocity. simpl.
  change (prop _ "respectReducedMotion") with JUndefined.
  change (prop _ "sampleMode") with (JStr "delta").
  change (prop _ "responsiveness") with JUndefined.
  change (prop _ "maxVelocity") with JUndefined. simpl.
  unfold instantaneous. simpl.
  rewrite clamp_inside; lra.
Qed.

Lemma nonzero_velocity_has_tick_requested_witness :
  let w := exec (run_actions [CallStart; FromBrowser (Scroll 100 50)])
     {| this := constructor (document_body idle_window)
                  {[ "sampleMode"%string := JStr "delta" ]};
        window := idle_window |} in
  _isRunning (this w) = true /\
  _rafId (this w) <> 0%nat /\
  raf_pending (window w) = [_rafId (this w)].
Proof.
  apply (nonzero_velocity_has_tick_requested
           {[ "sampleMode"%string := JStr "delta" ]} idle_window
           [CallStart; FromBrowser (Scroll 100 50)]).
  - reflexivity.
  - reflexivity.
  - rewrite delta_scroll_velocity. lra.
Defined.

Lemma stopped_tracker_is_inert_witness :
  let w := exec (run_actions [CallStart; CallStop])
             {| this := constructor (document_body idle_window) ∅; window := idle_window |} in
  let w' := exec (run_events [Scroll 100 50; Frame]) w in
  _velocity (this w) = 0 /\
  this w' = this w /\
  style_log (window w') = style_log (window w) /\
  raf_pending (window w') = [].
Proof.
  apply (stopped_tracker_is_inert ∅ idle_window [CallStart; CallStop]
           [Scroll 100 50; Frame]); reflexivity.
Defined.

Lemma start_is_idempotent_witness :
  scroll_listener (window (exec start
    {| this := constructor (JObj page_body) ∅; window := idle_window |})) = true.
Proof.
  apply (proj2 (proj2 (start_is_idempotent
    {| this := constructor (JObj page_body) ∅; window := idle_window |}))).
  reflexivity.
Defined.

Lemma only_setOptions_changes_config_witness :
  friction (this (exec (run_actions [CallStart; FromBrowser Frame; CallStop])
                    (started_at 1))) = friction (this (started_at 1)).
Proof.
  apply (only_setOptions_changes_config [CallStart; FromBrowser Frame; CallStop]
           (started_at 1)).
  reflexivity.
Defined.

Lemma constructor_is_setOptions_on_defaults_witness :
  constructor (JObj page_body) {[ "friction"%string := JNum 0.9 ]} =
  setOptions {[ "friction"%string := JNum 0.9 ]} (constructor (JObj page_body) ∅).
Proof.
  apply (constructor_is_setOptions_on_defaults (JObj page_body)
           {[ "friction"%string := JNum 0.9 ]}).
  - intros y. discriminate.
  - left. reflexivity.
  - left. reflexivity.
Defined.

Lemma falsy_flag_on_in_constructor_off_in_setOptions_witness :
  writeCSSVariables (constructor (JObj page_body) {[ "writeCSSVariables"%string := JNull ]}) = true /\
  writeCSSVariables (setOptions {[ "writeCSSVariables"%string := JNull ]}
                       (constructor (JObj page_body) ∅)) = false.
Proof.
  apply (proj1 (falsy_flag_on_in_constructor_off_in_setOptions (JObj page_body)
           {[ "writeCSSVariables"%string := JNull ]} (constructor (JObj page_body) ∅) JNull
           eq_refl ltac:(discriminate))).
  reflexivity.
Defined.

Lemma clamp_cases_witness :
  clamp 250 (-200) 200 = 200 /\ clamp 7 5 (-5) = 5.
Proof.
  split.
  - apply (proj1 (clamp_cases 250 (-200) 200)); lra.
  - apply (proj2 (clamp_cases 7 5 (-5))). lra.
Defined.

Lemma nonpositive_maxVelocity_pins_velocity_witness :
  let w := {| this := set_maxVelocity (-5) (this (started_at 0));
              window := window (started_at 0) |} in
  _velocity (this (exec _onScroll w)) = - maxVelocity (this w) /\
  eval getNormalizedVelocity (exec _onScroll w) = 0.
Proof.
  apply (nonpositive_maxVelocity_pins_velocity
    {| this := set_maxVelocity (-5) (this (started_at 0));
       window := window (started_at 0) |}).
  - change (-5 <= 0). lra.
  - reflexivity.
Defined.

Lemma still_sample_keeps_velocity_witness :
  _velocity (this (exec _onScroll (started_at 5))) = _velocity (this (started_at 5)).
Proof.
  apply (still_sample_keeps_velocity (started_at 5)).
  - reflexivity.
  - change (Rabs 5 <= 200). rewrite Rabs_right; lra.
  - left. reflexivity.
Defined.

Lemma instantaneous_at_most_displacement_witness :
  Rabs (instantaneous (JStr "hybrid") 100 50) <= Rabs 100.
Proof.
  apply (instantaneous_at_most_displacement (JStr "hybrid") 100 50). reflexivity.
Defined.

Lemma scroll_event_moves_velocity_by_at_most_witness :
  let w := {| this := this (started_at 5);
              window := set_scrollY 40 (window (started_at 5)) |} in
  Rabs (_velocity (this (exec _onScroll w)) - _velocity (this w)) <=
    responsiveness (this w) * Rabs (scrollY (window w) - _lastScrollY (this w)).
Proof.
  apply (scroll_event_moves_velocity_by_at_most
    {| this := this (started_at 5);
       window := set_scrollY 40 (window (started_at 5)) |}).
  - reflexivity.
  - reflexivity.
  - change (0 <= 0.35). lra.
  - change (Rabs 5 <= 200). rewrite Rabs_right; lra.
Defined.

Lemma tick_loop_comes_to_rest_witness :
  exists n : nat,
    let w' := exec (frames n) (started_at 1) in
    _velocity (this w') = 0 /\
    raf_pending (window w') = [] /\
    (forall m : nat, exec (frames m) w' = w').
Proof.
  apply (tick_loop_comes_to_rest (started_at 1) 1%nat).
  - reflexivity.
  - reflexivity.
  - reflexivity.
  - change (0 < 0.02). lra.
  - change (Rabs (0.92 * (1 - 0.04)) < 1). rewrite Rabs_right; lra.
Defined.

Lemma reduced_motion_ticks_do_not_decay_witness :
  let w := {| this := this (started_at 5);
              window := set_reduced_motion true (window (started_at 5)) |} in
  _velocity (this (exec (frames 10) w)) = _velocity (this w) /\
  exists id', raf_pending (window (exec (frames 10) w)) = [id'].
Proof.
  apply (reduced_motion_ticks_do_not_decay 10
    {| this := this (started_at 5);
       window := set_reduced_motion true (window (started_at 5)) |} 1%nat).
  - reflexivity.
  - reflexivity.
  - reflexivity.
  - change (5 <> 0). lra.
Defined.

Lemma velocity_always_within_maxVelocity_witness :
  let w := exec (run_actions [CallStart; FromBrowser (Scroll 100 50); FromBrowser Frame])
             {| this := constructor (JObj page_body) ∅; window := idle_window |} in
  Rabs (_velocity (this w)) <= maxVelocity (constructor (JObj page_body) ∅).
Proof.
  apply (velocity_always_within_maxVelocity (JObj page_body) ∅ idle_window
           [CallStart; FromBrowser (Scroll 100 50); FromBrowser Frame]).
  - reflexivity.
  - change (-1 <= 0.92 <= 1). lra.
  - change (0 <= 0.04 <= 1). lra.
  - change (0 <= 200). lra.
Defined.

Lemma pow_value_shape_witness : pow_of 0.2 <= pow_of 0.5.
Proof.
  apply (proj2 (proj2 (proj2 (proj2 (pow_value_shape 0.2 0.5))))).
  rewrite !Rabs_right; lra.
Defined.

Lemma writeCSS_effect_witness :
  output_element (this (started_at 1)) = Some page_body.
Proof.
  apply (proj2 (proj2 (proj2 (proj2 (writeCSS_effect 0 (started_at 1)))) page_body)).
  repeat split.
Defined.

Lemma no_style_write_when_disabled_witness :
  let w := {| this := set_writeCSSVariables false (this (started_at 1));
              window := window (started_at 1) |} in
  style_log (window (exec (run_actions [FromBrowser Frame; CallStop]) w)) =
  style_log (window w).
Proof.
  apply (no_style_write_when_disabled [FromBrowser Frame; CallStop]
    {| this := set_writeCSSVariables false (this (started_at 1));
       window := window (started_at 1) |}); reflexivity.
Defined.

Lemma target_and_sampleMode_stay_truthy_witness :
  truthy (target (this (exec (run_actions [CallSetOptions {[ "target"%string := JNull ]}; CallStart])
            {| this := constructor (JObj page_body) ∅; window := idle_window |}))) = true /\
  (let w := exec (run_actions [CallStart; FromBrowser Frame])
              {| this := constructor JNull ∅; window := idle_window |} in
   target (this w) = JNull /\ output_element (this w) = None).
Proof.
  split.
  - apply (proj1 (proj2 (proj2 (target_and_sampleMode_stay_truthy (JObj page_body) ∅
             idle_window [CallSetOptions {[ "target"%string := JNull ]}; CallStart])))).
    reflexivity.
  - apply (proj2 (proj2 (proj2 (target_and_sampleMode_stay_truthy JNull ∅
             idle_window [CallStart; FromBrowser Frame])))); reflexivity.
Defined.

(** ** After the snap: ticks, and scroll samples that leave the velocity at 0 *)

(** A sample that leaves a velocity of 0 at 0 still requests a tick. *)
Lemma still_scroll_at_rest (w : World) :
  _velocity (this w) = 0 ->
  _rafId (this w) = 0%nat ->
  0 <= maxVelocity (this w) ->
  (scrollY (window w) = _lastScrollY (this w) \/
   (sampleMode (this w) = JStr "hybrid" /\
    Rabs (scrollY (window w) - _lastScrollY (this w)) < 0.3)) ->
  let w' := exec _onScroll w in
  _velocity (this w') = 0 /\
  _rafId (this w') = S (raf_counter (window w)) /\
  raf_pending (window w') = raf_pending (window w) ++ [S (raf_counter (window w))].
Proof.
  intros Hv Hid Hm Hstill. cbv zeta.
  assert (Hi : instantaneous (sampleMode (this w))
                 (scrollY (window w) - _lastScrollY (this w))
                 (deltaT_of (now (window w)) (_lastTime (this w))) = 0).
  { destruct Hstill as [Hy|[Hmode Hj]].
    - rewrite Hy. replace (_lastScrollY (this w) - _lastScrollY (this w)) with 0 by ring.
      apply instantaneous_zero.
    - apply hybrid_jitter; [rewrite Hmode; reflexivity .. | exact Hj]. }
  split.
  - rewrite onScroll_velocity.
    destruct (respectReducedMotion (this w) && reduced_motion (window w)); [reflexivity|].
    simpl. rewrite Hi, Hv. rewrite clamp_inside; [ring | lra].
  - rewrite onScroll_exec.
    destruct (respectReducedMotion (this w) && reduced_motion (window w));
      unfold armed; simpl; rewrite Hid; simpl; split; reflexivity.
Qed.

Lemma onRaf_keeps_last_sample (w : World) :
  _lastScrollY (this (exec _onRaf w)) = _lastScrollY (this w) /\
  _lastTime (this (exec _onRaf w)) = _lastTime (this w).
Proof.
  rewrite onRaf_exec. cbv zeta.
  destruct (respectReducedMotion (this w) && reduced_motion (window w));
    match goal with |- context [if ?c then _ else _] => destruct c end;
    split; reflexivity.
Qed.

(** A tracker in the decay scenario whose next tick snaps, and a scroll
    event at the position of its last sample. *)
Lemma snap_then_still_scroll (w : World) (v time : R) :
  decaying w v -> 0 <= v -> v * 0.8832 < 0.02 ->
  0 <= maxVelocity (this w) ->
  scroll_listener (window w) = true ->
  let w1 := exec animation_frame w in
  let w2 := exec (scroll_event (_lastScrollY (this w)) time) w1 in
  _velocity (this w1) = 0 /\
  raf_pending (window w1) = [] /\
  _velocity (this w2) = 0 /\
  _rafId (this w2) <> 0%nat /\
  raf_pending (window w2) = [_rafId (this w2)].
Proof.
  intros Hd Hv0 Hlt Hm Hl. cbv zeta.
  destruct (decaying_last_tick w v Hd Hv0 Hlt) as (Hv1 & Hid1 & Hp1).
  cbv zeta in Hv1, Hid1, Hp1.
  destruct (step_same_setup Frame w) as [Hm1 Hl1].
  change (exec (step Frame) w) with (exec animation_frame w) in Hm1, Hl1.
  assert (Hy1 : _lastScrollY (this (exec animation_frame w)) = _lastScrollY (this w)).
  { destruct Hd as (_ & _ & _ & _ & _ & _ & id & Hp).
    rewrite (animation_frame_one w id Hp).
    rewrite (proj1 (onRaf_keeps_last_sample _)). reflexivity. }
  set (w1 := exec animation_frame w) in *.
  rewrite scroll_event_exec by (rewrite Hl1; exact Hl).
  destruct (still_scroll_at_rest
              {| this := this w1;
                 window := set_now time (set_scrollY (_lastScrollY (this w)) (window w1)) |})
    as (A1 & A2 & A3).
  - exact Hv1.
  - exact Hid1.
  - change (0 <= maxVelocity (this w1)). rewrite Hm1. exact Hm.
  - left. change (_lastScrollY (this w) = _lastScrollY (this w1)). rewrite Hy1. reflexivity.
  - cbv zeta in A1, A2, A3.
    change (raf_pending (window {| this := this w1;
              window := set_now time (set_scrollY (_lastScrollY (this w)) (window w1)) |}))
      with (raf_pending (window w1)) in A3.
    rewrite Hp1 in A3.
    split; [exact Hv1|]. split; [exact Hp1|]. split; [exact A1|].
    rewrite A2, A3. split; [discriminate | reflexivity].
Qed.

(** C8, as stated, fails: a tick is requested while the velocity is exactly
    0, by a sample that does not move it.  A default tracker at velocity
    0.01 snaps to 0 on its next tick, with nothing requested; a scroll event
    at the unchanged position 0 then leaves the velocity at 0 and requests a
    frame. *)
Lemma still_scroll_requests_tick_at_zero_velocity :
  let w1 := exec animation_frame (started_at 0.01) in
  let w2 := exec (scroll_event 0 50) w1 in
  _velocity (this w1) = 0 /\
  raf_pending (window w1) = [] /\
  _velocity (this w2) = 0 /\
  _rafId (this w2) <> 0%nat /\
  raf_pending (window w2) = [_rafId (this w2)].
Proof.
  apply (snap_then_still_scroll (started_at 0.01) 0.01 50).
  - apply started_at_decaying.
  - lra.
  - lra.
  - change (0 <= 200). lra.
  - reflexivity.
Qed.

(** C8, amended.  When the decay of a tick leaves [|velocity| < threshold],
    the velocity is set to exactly 0 and the tick handler requests no tick;
    every later run of the tick handler keeps it at 0 and requests none, and
    display refreshes run nothing.  Every scroll sample handled after that
    requests a tick again, also one that leaves the velocity at exactly 0
    (no movement, or less than 0.3 px in hybrid mode). *)
Theorem snapped_velocity_stays_zero (w : World) (n : nat) :
  respectReducedMotion (this w) && reduced_motion (window w) = false ->
  Rabs (_velocity (this w) * friction (this w) * (1 - attraction (this w)))
    < threshold (this w) ->
  let w1 := exec _onRaf w in
  let wn := exec (repeat_call n _onRaf) w1 in
  (_velocity (this w1) = 0 /\ _rafId (this w1) = 0%nat /\
   raf_pending (window w1) = raf_pending (window w)) /\
  (_velocity (this wn) = 0 /\ _rafId (this wn) = 0%nat /\
   raf_pending (window wn) = raf_pending (window w)) /\
  (raf_pending (window w) = [] -> exec (frames n) w1 = w1) /\
  _rafId (this (exec _onScroll wn)) = S (raf_counter (window wn)) /\
  (0 <= maxVelocity (this wn) ->
   (scrollY (window wn) = _lastScrollY (this wn) \/
    (sampleMode (this wn) = JStr "hybrid" /\
     Rabs (scrollY (window wn) - _lastScrollY (this wn)) < 0.3)) ->
   _velocity (this (exec _onScroll wn)) = 0 /\
   raf_pending (window (exec _onScroll wn)) =
     raf_pending (window w) ++ [S (raf_counter (window wn))]).
Proof.
  intros Hrm Hsnap w1 wn.
  assert (Hv1 : _velocity (this w1) = 0).
  { unfold w1. rewrite onRaf_velocity, Hrm, decayed_velocity. cbv zeta.
    rewrite Rltb_true by exact Hsnap. reflexivity. }
  destruct (onRaf_stops_at_zero w Hv1) as [Hid1 Hp1]. fold w1 in Hid1, Hp1.
  destruct (repeat_onRaf_at_rest n w1 Hv1 Hid1) as (Hvn & Hidn & Hpn).
  fold wn in Hvn, Hidn, Hpn.
  split; [auto|]. split; [rewrite <- Hp1; auto|]. split; [|split].
  - intros Hp. apply frames_idle. rewrite Hp1. exact Hp.
  - rewrite onScroll_exec.
    destruct (respectReducedMotion (this wn) && reduced_motion (window wn));
      rewrite armed_this; simpl; rewrite Hidn; reflexivity.
  - intros Hm Hstill.
    destruct (still_scroll_at_rest wn Hvn Hidn Hm Hstill) as (A1 & _ & A3).
    cbv zeta in A1, A3. split; [exact A1|].
    rewrite A3, Hpn, Hp1. reflexivity.
Qed.

(** C8 on the started default tracker at velocity 0.01, three more ticks. *)
Lemma snapped_velocity_stays_zero_witness :
  _velocity (this (exec (repeat_call 3 _onRaf) (exec _onRaf (started_at 0.01)))) = 0.
Proof.
  apply (snapped_velocity_stays_zero (started_at 0.01) 3).
  - reflexivity.
  - change (Rabs (0.01 * 0.92 * (1 - 0.04)) < 0.02).
    rewrite Rabs_right; lra.
Defined.
